(** * binfmt/binfmt_execmodule.c : starting a loaded module as a task

    A shallow embedding of [exec_ctors] and [exec_module] and the properties
    of the launch sequence: which collaborators are called, in which order,
    what is undone on each error exit and what is returned.

    The function is a straight line of calls into the scheduler, the
    allocators and the address environment interface, with four error labels
    at its end.  None of these collaborators lives in this file of the
    kernel, so their results are an input of the model (record [collab]) and
    every call and every access to the task control block is an event of the
    trace the model returns next to the result. *)

From Stdlib Require Import String ZArith List Bool Lia.
Import ListNotations.
Local Open Scope Z_scope.

(* ------------------------------------------------------------------------ *)
(** ** Constants and build configuration *)

(** Pointers are addresses; [NULL] is address zero. *)
Definition NULL : Z := 0.

(** "On failure, it returns -1 (ERROR)" says the header of [exec_module]. *)
Definition ERROR : Z := -1.

(** Modelled from the spec: errno.h is not part of the sources; the
    diagnostic of [InvalidArgument] is the system's [EINVAL]. *)
Definition EINVAL : Z := 22.

(** Modelled from the spec: errno.h is not part of the sources; the
    diagnostic of [OutOfMemory] is the system's [ENOMEM]. *)
Definition ENOMEM : Z := 12.

(** "0=normal task" says the comment that follows [task_init]. *)
Definition TCB_FLAG_TTYPE_TASK : Z := 0.

(** Modelled from the spec: sched.h is not part of the sources; the bit that
    marks "the resource group as owning an address space". *)
Definition GROUP_FLAG_ADDRENV : Z := 2.

(** The pre-processor symbols that select code in this file. *)
Record config := {
  CONFIG_DEBUG : bool;
  CONFIG_ARCH_ADDRENV : bool;
  CONFIG_PIC : bool;
  CONFIG_BINFMT_CONSTRUCTORS : bool;
  CONFIG_ARCH_HEAP_VBASE : Z
}.

(* ------------------------------------------------------------------------ *)
(** ** Data *)

(** [struct binary_s], the fields this file reads.  [ctors] is the array
    [binp->ctors] points to, [alloc] the array of allocated address spaces. *)
Record binary_s := {
  filename : string;
  argv : list string;
  entrypt : Z;
  alloc : list Z;
  ctors : list Z;
  nctors : Z;
  addrenv : Z;
  priority : Z;
  stacksize : Z
}.

(** [struct task_tcb_s], the fields this file reads or writes; the group
    fields are reached through [tcb->cmn.group].  The only start hook this
    file registers is [exec_ctors], so the hook slot holds its argument. *)
Record task_tcb_s := {
  pid : Z;
  stack_alloc_ptr : Z;
  dspace : Z;
  tg_flags : Z;
  group_addrenv : Z;
  starthook : option binary_s
}.

Definition tcb_zero : task_tcb_s :=
  {| pid := 0; stack_alloc_ptr := NULL; dspace := NULL; tg_flags := 0;
     group_addrenv := 0; starthook := None |}.

(** What the launch sequence does that the rest of the kernel can see: one
    event per call of a collaborator, with its arguments and its result, and
    one per access to a field of the descriptor. *)
Inductive event :=
| Ekmm_zalloc (ret : Z)
| Eup_addrenv_select (env oldenv ret : Z)
| Eumm_initialize (base size : Z)
| Ekumm_malloc (size ret : Z)
| Etask_init (tcb : Z) (prio stack size entry ret : Z)
| Etcb_set_dspace (tcb v : Z)
| Eup_initial_state (tcb : Z)
| Eup_addrenv_clone (env tcb ret : Z)
| Etcb_set_tg_flags (tcb v : Z)
| Etask_starthook (tcb : Z)
| Etcb_get_pid (tcb v : Z)
| Etask_activate (tcb ret : Z)
| Eup_addrenv_restore (oldenv ret : Z)
| Etcb_set_stack_alloc_ptr (tcb v : Z)
| Esched_releasetcb (tcb ttype stack : Z)
| Ekumm_free (p : Z)
| Ekmm_free (p : Z)
| Eset_errno (err : Z)
| Ector (fn : Z).

(** The part of the kernel the sequence works on: the task's [errno], the
    address environment selected on the calling thread and the memory of the
    descriptor under construction. *)
Record kstate := {
  errno : Z;
  addrenv_cur : Z;
  tcb_mem : task_tcb_s
}.

(** The results of the collaborators.  Each is called at most once in a
    launch, so one value per collaborator describes a run of the kernel
    around [exec_module]. *)
Record collab := {
  kmm_zalloc_ret : Z;
  up_addrenv_select_ret : Z;
  up_addrenv_heapsize_ret : Z;
  kumm_malloc_ret : Z;
  task_init_ret : Z;
  task_init_errno : Z;
  task_init_pid : Z;
  up_addrenv_clone_ret : Z;
  task_activate_ret : Z;
  task_activate_errno : Z;
  up_addrenv_restore_ret : Z
}.

(* ------------------------------------------------------------------------ *)
(** ** The monad of kernel code

    A computation reads and writes the kernel state and either faults (a
    NULL or out-of-bounds access, where C gives no meaning) or returns a
    value, the new state and the events it produced, oldest first. *)

Definition M (A : Type) : Type := kstate -> option (A * kstate * list event).

Definition ret {A} (a : A) : M A := fun s => Some (a, s, []).

Definition bind {A B} (m : M A) (k : A -> M B) : M B :=
  fun s => match m s with
           | Some (a, s1, l1) =>
               match k a s1 with
               | Some (b, s2, l2) => Some (b, s2, l1 ++ l2)
               | None => None
               end
           | None => None
           end.

Definition fault {A} : M A := fun _ => None.

Declare Scope kernel_scope.
Delimit Scope kernel_scope with kernel.
Notation "x <- m ;; k" := (bind m (fun x => k))
  (at level 61, m at next level, right associativity) : kernel_scope.
Notation "m ;; k" := (bind m (fun _ => k))
  (at level 61, right associativity) : kernel_scope.
Local Open Scope kernel_scope.

Definition log (e : event) : M unit := fun s => Some (tt, s, [e]).

Definition put_errno (v : Z) : M unit :=
  fun s => Some (tt, {| errno := v; addrenv_cur := addrenv_cur s;
                        tcb_mem := tcb_mem s |}, []).

Definition put_addrenv (v : Z) : M unit :=
  fun s => Some (tt, {| errno := errno s; addrenv_cur := v;
                        tcb_mem := tcb_mem s |}, []).

Definition put_tcb (t : task_tcb_s) : M unit :=
  fun s => Some (tt, {| errno := errno s; addrenv_cur := addrenv_cur s;
                        tcb_mem := t |}, []).

Definition get_tcb : M task_tcb_s := fun s => Some (tcb_mem s, s, []).

Definition when (b : bool) (m : M unit) : M unit := if b then m else ret tt.

(** Reading through a pointer to the image descriptor. *)
Definition deref (binp : option binary_s) : M binary_s :=
  match binp with
  | Some b => ret b
  | None => fault
  end.

(* ------------------------------------------------------------------------ *)
(** ** Collaborators

    Each logs its call, takes its result from [collab] and has the effect on
    the kernel state that its interface promises. *)

(** Modelled from the spec: [kmm_zalloc] is not part of the sources.
    "Allocate descriptor from the kernel allocator, zero-initialized."  The
    call is [kmm_zalloc(sizeof(struct task_tcb_s))]. *)
Definition kmm_zalloc (w : collab) : M Z :=
  log (Ekmm_zalloc (kmm_zalloc_ret w)) ;;
  (if kmm_zalloc_ret w =? NULL then ret tt else put_tcb tcb_zero) ;;
  ret (kmm_zalloc_ret w).

(** Modelled from the spec: [up_addrenv_select] is not part of the sources.
    "Select the image's address-space template as the active context for the
    current execution thread, saving the previously active context."  The
    result is the return value and the saved context [oldenv]. *)
Definition up_addrenv_select (w : collab) (env : Z) : M (Z * Z) :=
  fun s =>
    let oldenv := addrenv_cur s in
    (log (Eup_addrenv_select env oldenv (up_addrenv_select_ret w)) ;;
     (if up_addrenv_select_ret w <? 0 then ret tt else put_addrenv env) ;;
     ret (up_addrenv_select_ret w, oldenv)) s.

(** Modelled from the spec: [up_addrenv_restore] is not part of the sources.
    "Restore the caller's previously active address-space context." *)
Definition up_addrenv_restore (w : collab) (oldenv : Z) : M Z :=
  log (Eup_addrenv_restore oldenv (up_addrenv_restore_ret w)) ;;
  (if up_addrenv_restore_ret w <? 0 then ret tt else put_addrenv oldenv) ;;
  ret (up_addrenv_restore_ret w).

(** Modelled from the spec: [umm_initialize] is not part of the sources.
    "Then initialize the task-owned heap inside that address space." *)
Definition umm_initialize (base size : Z) : M unit :=
  log (Eumm_initialize base size).

(** Modelled from the spec: [kumm_malloc] is not part of the sources; the
    allocator of the user heap, [task_alloc(size) -> ptr|Error]. *)
Definition kumm_malloc (w : collab) (size : Z) : M Z :=
  log (Ekumm_malloc size (kumm_malloc_ret w)) ;;
  ret (kumm_malloc_ret w).

(** Modelled from the spec: [task_free(ptr)] and [kernel_free(ptr)]. *)
Definition kumm_free (p : Z) : M unit := log (Ekumm_free p).

Definition kmm_free (p : Z) : M unit := log (Ekmm_free p).

(** [get_errno()] and [set_errno(err)], on the [errno] of the caller. *)
Definition get_errno : M Z := fun s => Some (errno s, s, []).

Definition set_errno (err : Z) : M unit :=
  log (Eset_errno err) ;; put_errno err.

(** Modelled from the spec: [task_init] is not part of the sources.
    "Initialize the task descriptor with entry point, stack, stack size,
    priority, and arguments"; "from step 4 onward, the Task Descriptor owns
    the stack", and it has its identity.  A refusal leaves a diagnostic in
    [errno]. *)
Definition task_init (w : collab) (tcb prio stack size entry : Z) : M Z :=
  log (Etask_init tcb prio stack size entry (task_init_ret w)) ;;
  (if task_init_ret w <? 0 then put_errno (task_init_errno w)
   else
     t <- get_tcb ;;
     put_tcb {| pid := task_init_pid w; stack_alloc_ptr := stack;
                dspace := dspace t; tg_flags := tg_flags t;
                group_addrenv := group_addrenv t;
                starthook := starthook t |}) ;;
  ret (task_init_ret w).

(** [up_initial_state(&tcb->cmn)], the architecture's reset of the
    register context. *)
Definition up_initial_state (tcb : Z) : M unit := log (Eup_initial_state tcb).

(** Modelled from the spec: [up_addrenv_clone] is not part of the sources.
    "Clone the address-space template into the task's own resource group." *)
Definition up_addrenv_clone (w : collab) (env tcb : Z) : M Z :=
  log (Eup_addrenv_clone env tcb (up_addrenv_clone_ret w)) ;;
  (if up_addrenv_clone_ret w <? 0 then ret tt
   else
     t <- get_tcb ;;
     put_tcb {| pid := pid t; stack_alloc_ptr := stack_alloc_ptr t;
                dspace := dspace t; tg_flags := tg_flags t;
                group_addrenv := env; starthook := starthook t |}) ;;
  ret (up_addrenv_clone_ret w).

(** Modelled from the spec: [task_starthook] is not part of the sources.
    "Register the Constructor Hook against the descriptor, capturing a
    reference to the image descriptor".  The call is
    [task_starthook(tcb, exec_ctors, binp)]. *)
Definition task_starthook (tcb : Z) (arg : binary_s) : M unit :=
  log (Etask_starthook tcb) ;;
  t <- get_tcb ;;
  put_tcb {| pid := pid t; stack_alloc_ptr := stack_alloc_ptr t;
             dspace := dspace t; tg_flags := tg_flags t;
             group_addrenv := group_addrenv t; starthook := Some arg |}.

(** Modelled from the spec: [task_activate] is not part of the sources.
    "Hand the descriptor to the scheduler, making it eligible to run."  A
    refusal leaves a diagnostic in [errno]. *)
Definition task_activate (w : collab) (tcb : Z) : M Z :=
  log (Etask_activate tcb (task_activate_ret w)) ;;
  (if task_activate_ret w <? 0 then put_errno (task_activate_errno w)
   else ret tt) ;;
  ret (task_activate_ret w).

(** Modelled from the spec: [sched_releasetcb] is not part of the sources.
    Releasing the descriptor "transitively frees the stack" it owns, the one
    its [stack_alloc_ptr] names; the event records that pointer. *)
Definition sched_releasetcb (tcb ttype : Z) : M unit :=
  t <- get_tcb ;;
  log (Esched_releasetcb tcb ttype (stack_alloc_ptr t)).

(* ------------------------------------------------------------------------ *)
(** ** Accesses to the descriptor *)

(** [tcb->cmn.dspace = v] *)
Definition tcb_set_dspace (tcb v : Z) : M unit :=
  log (Etcb_set_dspace tcb v) ;;
  t <- get_tcb ;;
  put_tcb {| pid := pid t; stack_alloc_ptr := stack_alloc_ptr t;
             dspace := v; tg_flags := tg_flags t;
             group_addrenv := group_addrenv t; starthook := starthook t |}.

(** [tcb->cmn.group->tg_flags |= v] *)
Definition tcb_or_tg_flags (tcb v : Z) : M unit :=
  log (Etcb_set_tg_flags tcb v) ;;
  t <- get_tcb ;;
  put_tcb {| pid := pid t; stack_alloc_ptr := stack_alloc_ptr t;
             dspace := dspace t; tg_flags := Z.lor (tg_flags t) v;
             group_addrenv := group_addrenv t; starthook := starthook t |}.

(** [tcb->cmn.pid] *)
Definition tcb_get_pid (tcb : Z) : M Z :=
  t <- get_tcb ;;
  log (Etcb_get_pid tcb (pid t)) ;;
  ret (pid t).

(** [tcb->cmn.stack_alloc_ptr = v] *)
Definition tcb_set_stack_alloc_ptr (tcb v : Z) : M unit :=
  log (Etcb_set_stack_alloc_ptr tcb v) ;;
  t <- get_tcb ;;
  put_tcb {| pid := pid t; stack_alloc_ptr := v;
             dspace := dspace t; tg_flags := tg_flags t;
             group_addrenv := group_addrenv t; starthook := starthook t |}.

(* ------------------------------------------------------------------------ *)
(** ** exec_ctors *)

(** The body of [for (i = 0; i < binp->nctors; i++)]: [n] iterations are
    left and [ctor] points at the rest of the array; the call through
    [ctor] is the event [Ector], [ctor++] the tail.  Reading past the array
    faults. *)
Fixpoint exec_ctors_loop (n : nat) (ctor : list Z) : M unit :=
  match n with
  | O => ret tt
  | S n' =>
      match ctor with
      | [] => fault
      | fn :: ctor' => log (Ector fn) ;; exec_ctors_loop n' ctor'
      end
  end.

Definition exec_ctors (arg : option binary_s) : M unit :=
  binp <- deref arg ;;
  exec_ctors_loop (Z.to_nat (nctors binp)) (ctors binp).

(* ------------------------------------------------------------------------ *)
(** ** exec_module *)

(** [!binp || !binp->entrypt || binp->stacksize <= 0] *)
Definition sanity_fails (binp : option binary_s) : bool :=
  match binp with
  | None => true
  | Some b => (entrypt b =? NULL) || (stacksize b <=? 0)
  end.

(** The error labels, from the last to the first. *)
Definition errout (err : Z) : M Z :=
  set_errno err ;;
  ret ERROR.

Definition errout_with_tcb (tcb err : Z) : M Z :=
  kmm_free tcb ;;
  errout err.

Definition errout_with_addrenv (cfg : config) (w : collab)
    (oldenv tcb err : Z) : M Z :=
  when (CONFIG_ARCH_ADDRENV cfg) (up_addrenv_restore w oldenv ;; ret tt) ;;
  errout_with_tcb tcb err.

Definition errout_with_stack (tcb stack err : Z) : M Z :=
  tcb_set_stack_alloc_ptr tcb NULL ;;
  sched_releasetcb tcb TCB_FLAG_TTYPE_TASK ;;
  kumm_free stack ;;
  errout err.

(** [&binp->addrenv]: the address is taken, the descriptor is not read.
    What the callee finds there is the image's environment; behind a NULL
    descriptor there is none, and the model writes 0 for it. *)
Definition addrenv_at (binp : option binary_s) : Z :=
  match binp with
  | Some b => addrenv b
  | None => 0
  end.

(** The function body.  A block under [#ifdef CONFIG_X] is a test of
    [CONFIG_X cfg]; [goto label] is the call of the label, which ends the
    function.  With [CONFIG_DEBUG] the descriptor has been checked before it
    is first read; without it the first read is [binp->stacksize], the
    argument of [kumm_malloc]: before that only the address
    [&binp->addrenv] is taken.  The [int]s are integers: the only arithmetic
    is [err = -ret] on a negated errno value, and the cast [(int)pid]
    widens. *)
Definition exec_module (cfg : config) (w : collab)
    (binp : option binary_s) : M Z :=
  if CONFIG_DEBUG cfg && sanity_fails binp then errout EINVAL else
  tcb <- kmm_zalloc w ;;
  if tcb =? NULL then errout ENOMEM else
  sel <- (if CONFIG_ARCH_ADDRENV cfg
          then up_addrenv_select w (addrenv_at binp)
          else ret (0, 0)) ;;
  let oldenv := snd sel in
  if CONFIG_ARCH_ADDRENV cfg && (fst sel <? 0)
  then errout_with_tcb tcb (- fst sel) else
  when (CONFIG_ARCH_ADDRENV cfg)
    (umm_initialize (CONFIG_ARCH_HEAP_VBASE cfg) (up_addrenv_heapsize_ret w)) ;;
  b <- deref binp ;;
  stack <- kumm_malloc w (stacksize b) ;;
  if stack =? NULL then errout_with_addrenv cfg w oldenv tcb ENOMEM else
  r <- task_init w tcb (priority b) stack (stacksize b) (entrypt b) ;;
  if r <? 0 then (err <- get_errno ;; errout_with_stack tcb stack err) else
  when (CONFIG_PIC cfg)
    (tcb_set_dspace tcb (nth 0 (alloc b) NULL) ;; up_initial_state tcb) ;;
  r <- (if CONFIG_ARCH_ADDRENV cfg then up_addrenv_clone w (addrenv b) tcb
        else ret 0) ;;
  if CONFIG_ARCH_ADDRENV cfg && (r <? 0)
  then errout_with_stack tcb stack (- r) else
  when (CONFIG_ARCH_ADDRENV cfg) (tcb_or_tg_flags tcb GROUP_FLAG_ADDRENV) ;;
  when (CONFIG_BINFMT_CONSTRUCTORS cfg) (task_starthook tcb b) ;;
  pid <- tcb_get_pid tcb ;;
  r <- task_activate w tcb ;;
  if r <? 0 then (err <- get_errno ;; errout_with_stack tcb stack err) else
  r <- (if CONFIG_ARCH_ADDRENV cfg then up_addrenv_restore w oldenv
        else ret 0) ;;
  if CONFIG_ARCH_ADDRENV cfg && (r <? 0)
  then errout_with_stack tcb stack (- r) else
  ret pid.

(* ------------------------------------------------------------------------ *)
(** ** The paths through exec_module

    The events of each stretch of the function, and one rule per way out of
    it.  [launch_run] is what the proofs below take apart; lemma
    [exec_module_run] shows that every run of [exec_module] is one of its
    rules. *)

Section Paths.

Variables (cfg : config) (w : collab) (s : kstate).

Let tcb := kmm_zalloc_ret w.
Let stack := kumm_malloc_ret w.

Definition ev_select (b : binary_s) : list event :=
  if CONFIG_ARCH_ADDRENV cfg
  then [Eup_addrenv_select (addrenv b) (addrenv_cur s)
          (up_addrenv_select_ret w)]
  else [].

Definition ev_heap : list event :=
  if CONFIG_ARCH_ADDRENV cfg
  then [Eumm_initialize (CONFIG_ARCH_HEAP_VBASE cfg)
          (up_addrenv_heapsize_ret w)]
  else [].

Definition ev_stack (b : binary_s) : list event :=
  Ekmm_zalloc tcb :: ev_select b ++ ev_heap ++
  [Ekumm_malloc (stacksize b) stack].

Definition ev_init (b : binary_s) : list event :=
  ev_stack b ++
  [Etask_init tcb (priority b) stack (stacksize b) (entrypt b)
     (task_init_ret w)].

Definition ev_pic (b : binary_s) : list event :=
  if CONFIG_PIC cfg
  then [Etcb_set_dspace tcb (nth 0 (alloc b) NULL); Eup_initial_state tcb]
  else [].

Definition ev_clone (b : binary_s) : list event :=
  ev_init b ++ ev_pic b ++
  (if CONFIG_ARCH_ADDRENV cfg
   then [Eup_addrenv_clone (addrenv b) tcb (up_addrenv_clone_ret w)]
   else []).

Definition ev_hook : list event :=
  (if CONFIG_ARCH_ADDRENV cfg
   then [Etcb_set_tg_flags tcb GROUP_FLAG_ADDRENV] else []) ++
  (if CONFIG_BINFMT_CONSTRUCTORS cfg then [Etask_starthook tcb] else []).

Definition ev_activate (b : binary_s) : list event :=
  ev_clone b ++ ev_hook ++
  [Etcb_get_pid tcb (task_init_pid w);
   Etask_activate tcb (task_activate_ret w)].

Definition ev_restore : list event :=
  if CONFIG_ARCH_ADDRENV cfg
  then [Eup_addrenv_restore (addrenv_cur s) (up_addrenv_restore_ret w)]
  else [].

(** The events of label [errout_with_stack] and of [errout] after it. *)
Definition ev_unwind (err : Z) : list event :=
  [Etcb_set_stack_alloc_ptr tcb NULL;
   Esched_releasetcb tcb TCB_FLAG_TTYPE_TASK NULL;
   Ekumm_free stack;
   Eset_errno err].

(** The address environment selected once [up_addrenv_select] is past. *)
Definition env_selected (b : binary_s) : Z :=
  if CONFIG_ARCH_ADDRENV cfg then addrenv b else addrenv_cur s.

Inductive launch_run :
  option binary_s -> Z -> kstate -> list event -> Prop :=
| run_sanity binp s' :
    CONFIG_DEBUG cfg = true ->
    sanity_fails binp = true ->
    errno s' = EINVAL ->
    addrenv_cur s' = addrenv_cur s ->
    launch_run binp ERROR s' [Eset_errno EINVAL]
| run_no_tcb binp s' :
    CONFIG_DEBUG cfg && sanity_fails binp = false ->
    (tcb =? NULL) = true ->
    errno s' = ENOMEM ->
    addrenv_cur s' = addrenv_cur s ->
    launch_run binp ERROR s' [Ekmm_zalloc tcb; Eset_errno ENOMEM]
| run_select_fails binp s' :
    CONFIG_DEBUG cfg && sanity_fails binp = false ->
    (tcb =? NULL) = false ->
    CONFIG_ARCH_ADDRENV cfg = true ->
    (up_addrenv_select_ret w <? 0) = true ->
    errno s' = - up_addrenv_select_ret w ->
    addrenv_cur s' = addrenv_cur s ->
    launch_run binp ERROR s'
      [Ekmm_zalloc tcb;
       Eup_addrenv_select (addrenv_at binp) (addrenv_cur s)
         (up_addrenv_select_ret w);
       Ekmm_free tcb; Eset_errno (- up_addrenv_select_ret w)]
| run_no_stack b s' :
    CONFIG_DEBUG cfg && sanity_fails (Some b) = false ->
    (tcb =? NULL) = false ->
    CONFIG_ARCH_ADDRENV cfg && (up_addrenv_select_ret w <? 0) = false ->
    (stack =? NULL) = true ->
    errno s' = ENOMEM ->
    addrenv_cur s' =
      (if CONFIG_ARCH_ADDRENV cfg && (up_addrenv_restore_ret w <? 0)
       then addrenv b else addrenv_cur s) ->
    launch_run (Some b) ERROR s'
      (ev_stack b ++ ev_restore ++ [Ekmm_free tcb; Eset_errno ENOMEM])
| run_init_fails b s' :
    CONFIG_DEBUG cfg && sanity_fails (Some b) = false ->
    (tcb =? NULL) = false ->
    CONFIG_ARCH_ADDRENV cfg && (up_addrenv_select_ret w <? 0) = false ->
    (stack =? NULL) = false ->
    (task_init_ret w <? 0) = true ->
    errno s' = task_init_errno w ->
    addrenv_cur s' = env_selected b ->
    launch_run (Some b) ERROR s' (ev_init b ++ ev_unwind (task_init_errno w))
| run_clone_fails b s' :
    CONFIG_DEBUG cfg && sanity_fails (Some b) = false ->
    (tcb =? NULL) = false ->
    CONFIG_ARCH_ADDRENV cfg = true ->
    (up_addrenv_select_ret w <? 0) = false ->
    (stack =? NULL) = false ->
    (task_init_ret w <? 0) = false ->
    (up_addrenv_clone_ret w <? 0) = true ->
    errno s' = - up_addrenv_clone_ret w ->
    addrenv_cur s' = env_selected b ->
    launch_run (Some b) ERROR s'
      (ev_clone b ++ ev_unwind (- up_addrenv_clone_ret w))
| run_activate_fails b s' :
    CONFIG_DEBUG cfg && sanity_fails (Some b) = false ->
    (tcb =? NULL) = false ->
    CONFIG_ARCH_ADDRENV cfg && (up_addrenv_select_ret w <? 0) = false ->
    (stack =? NULL) = false ->
    (task_init_ret w <? 0) = false ->
    CONFIG_ARCH_ADDRENV cfg && (up_addrenv_clone_ret w <? 0) = false ->
    (task_activate_ret w <? 0) = true ->
    errno s' = task_activate_errno w ->
    addrenv_cur s' = env_selected b ->
    launch_run (Some b) ERROR s'
      (ev_activate b ++ ev_unwind (task_activate_errno w))
| run_restore_fails b s' :
    CONFIG_DEBUG cfg && sanity_fails (Some b) = false ->
    (tcb =? NULL) = false ->
    CONFIG_ARCH_ADDRENV cfg = true ->
    (up_addrenv_select_ret w <? 0) = false ->
    (stack =? NULL) = false ->
    (task_init_ret w <? 0) = false ->
    (up_addrenv_clone_ret w <? 0) = false ->
    (task_activate_ret w <? 0) = false ->
    (up_addrenv_restore_ret w <? 0) = true ->
    errno s' = - up_addrenv_restore_ret w ->
    addrenv_cur s' = env_selected b ->
    launch_run (Some b) ERROR s'
      (ev_activate b ++ ev_restore ++ ev_unwind (- up_addrenv_restore_ret w))
| run_ok b s' :
    CONFIG_DEBUG cfg && sanity_fails (Some b) = false ->
    (tcb =? NULL) = false ->
    CONFIG_ARCH_ADDRENV cfg && (up_addrenv_select_ret w <? 0) = false ->
    (stack =? NULL) = false ->
    (task_init_ret w <? 0) = false ->
    CONFIG_ARCH_ADDRENV cfg && (up_addrenv_clone_ret w <? 0) = false ->
    (task_activate_ret w <? 0) = false ->
    CONFIG_ARCH_ADDRENV cfg && (up_addrenv_restore_ret w <? 0) = false ->
    errno s' = errno s ->
    addrenv_cur s' = addrenv_cur s ->
    pid (tcb_mem s') = task_init_pid w ->
    launch_run (Some b) (task_init_pid w) s' (ev_activate b ++ ev_restore).

End Paths.

(* ------------------------------------------------------------------------ *)
(** ** Reading a trace *)

(** Calls that make the scheduler know the descriptor. *)
Definition scheduler_call (e : event) : bool :=
  match e with
  | Etask_init _ _ _ _ _ _ | Etask_starthook _ | Etask_activate _ _ => true
  | _ => false
  end.

(** Modelled from the spec: [sched_releasetcb] is not part of the sources.
    Releasing a descriptor frees the stack that its [stack_alloc_ptr] names,
    when it names one. *)
Definition release_frees (stack : Z) (e : event) : bool :=
  match e with
  | Esched_releasetcb _ _ p => negb (p =? NULL) && (p =? stack)
  | _ => false
  end.

(** [kumm_free(stack)] in [exec_module] itself. *)
Definition sequencer_frees (stack : Z) (e : event) : bool :=
  match e with
  | Ekumm_free p => p =? stack
  | _ => false
  end.

Definition count (f : event -> bool) (evs : list event) : nat :=
  length (filter f evs).

(** Events in which [exec_module] reads or writes the descriptor, or hands
    it to a collaborator. *)
Definition uses_tcb (e : event) : bool :=
  match e with
  | Etask_init _ _ _ _ _ _ | Etcb_set_dspace _ _ | Eup_initial_state _
  | Eup_addrenv_clone _ _ _ | Etcb_set_tg_flags _ _ | Etask_starthook _
  | Etcb_get_pid _ _ | Etask_activate _ _ | Etcb_set_stack_alloc_ptr _ _
  | Esched_releasetcb _ _ _ | Ekmm_free _ => true
  | _ => false
  end.

Definition is_task_activate (e : event) : bool :=
  match e with
  | Etask_activate _ _ => true
  | _ => false
  end.

Inductive heap := KernelHeap | UserHeap.

(** The allocator calls of the file: [kmm_zalloc] serves from the kernel
    heap, [kumm_malloc] from the user heap ("This allocation is currently
    always from the user heap"); with the block each returned. *)
Definition allocation (e : event) : option (heap * Z) :=
  match e with
  | Ekmm_zalloc p => Some (KernelHeap, p)
  | Ekumm_malloc _ p => Some (UserHeap, p)
  | _ => None
  end.

(** The heaps that block [p] was drawn from in a trace. *)
Definition heaps_of (p : Z) (evs : list event) : list heap :=
  flat_map (fun e => match allocation e with
                     | Some (h, q) => if q =? p then [h] else []
                     | None => []
                     end) evs.

(** The collaborators, and which one an event is a call of. *)
Inductive callee :=
| Ckmm_zalloc | Cup_addrenv_select | Cumm_initialize | Ckumm_malloc
| Ctask_init | Cup_initial_state | Cup_addrenv_clone | Ctask_starthook
| Ctask_activate | Cup_addrenv_restore | Csched_releasetcb | Ckumm_free
| Ckmm_free | Cset_errno.

Definition callee_of (e : event) : option callee :=
  match e with
  | Ekmm_zalloc _ => Some Ckmm_zalloc
  | Eup_addrenv_select _ _ _ => Some Cup_addrenv_select
  | Eumm_initialize _ _ => Some Cumm_initialize
  | Ekumm_malloc _ _ => Some Ckumm_malloc
  | Etask_init _ _ _ _ _ _ => Some Ctask_init
  | Eup_initial_state _ => Some Cup_initial_state
  | Eup_addrenv_clone _ _ _ => Some Cup_addrenv_clone
  | Etask_starthook _ => Some Ctask_starthook
  | Etask_activate _ _ => Some Ctask_activate
  | Eup_addrenv_restore _ _ => Some Cup_addrenv_restore
  | Esched_releasetcb _ _ _ => Some Csched_releasetcb
  | Ekumm_free _ => Some Ckumm_free
  | Ekmm_free _ => Some Ckmm_free
  | Eset_errno _ => Some Cset_errno
  | Etcb_set_dspace _ _ | Etcb_set_tg_flags _ _ | Etcb_get_pid _ _
  | Etcb_set_stack_alloc_ptr _ _ | Ector _ => None
  end.

Definition calls (evs : list event) : list callee :=
  flat_map (fun e => match callee_of e with
                     | Some c => [c]
                     | None => []
                     end) evs.

(** The steps of the launch sequence in their order (4.1 of the
    specification, with the checks a build has): the diagnostic of the first
    step that fails, [None] when every step succeeds.  The argument check
    reports [EINVAL], an allocation [ENOMEM], a step of the address
    environment interface its negated return value, the scheduler what it
    left in [errno]. *)
Definition launch_failure (cfg : config) (w : collab)
    (binp : option binary_s) : option Z :=
  if CONFIG_DEBUG cfg && sanity_fails binp then Some EINVAL
  else if kmm_zalloc_ret w =? NULL then Some ENOMEM
  else if CONFIG_ARCH_ADDRENV cfg && (up_addrenv_select_ret w <? 0)
       then Some (- up_addrenv_select_ret w)
  else if kumm_malloc_ret w =? NULL then Some ENOMEM
  else if task_init_ret w <? 0 then Some (task_init_errno w)
  else if CONFIG_ARCH_ADDRENV cfg && (up_addrenv_clone_ret w <? 0)
       then Some (- up_addrenv_clone_ret w)
  else if task_activate_ret w <? 0 then Some (task_activate_errno w)
  else if CONFIG_ARCH_ADDRENV cfg && (up_addrenv_restore_ret w <? 0)
       then Some (- up_addrenv_restore_ret w)
  else None.

(* ------------------------------------------------------------------------ *)
(** ** Concrete kernels, for the examples *)

Definition cfg_flat : config :=
  {| CONFIG_DEBUG := true; CONFIG_ARCH_ADDRENV := false; CONFIG_PIC := false;
     CONFIG_BINFMT_CONSTRUCTORS := false; CONFIG_ARCH_HEAP_VBASE := 0 |}.

Definition cfg_addrenv : config :=
  {| CONFIG_DEBUG := true; CONFIG_ARCH_ADDRENV := true; CONFIG_PIC := false;
     CONFIG_BINFMT_CONSTRUCTORS := true; CONFIG_ARCH_HEAP_VBASE := 4096 |}.

Definition cfg_nodebug : config :=
  {| CONFIG_DEBUG := false; CONFIG_ARCH_ADDRENV := false; CONFIG_PIC := false;
     CONFIG_BINFMT_CONSTRUCTORS := false; CONFIG_ARCH_HEAP_VBASE := 0 |}.

Definition bin_hello : binary_s :=
  {| filename := "hello"%string; argv := []; entrypt := 16384; alloc := [20480];
     ctors := [24576; 24580; 24584]; nctors := 3; addrenv := 9;
     priority := 100; stacksize := 2048 |}.

Definition bin_no_stack : binary_s :=
  {| filename := "hello"%string; argv := []; entrypt := 16384; alloc := [20480];
     ctors := []; nctors := 0; addrenv := 9;
     priority := 100; stacksize := 0 |}.

(** The caller runs in address environment 1. *)
Definition st_caller : kstate :=
  {| errno := 0; addrenv_cur := 1; tcb_mem := tcb_zero |}.

(** Every collaborator succeeds; the descriptor is at 100, the stack at 200
    and the new task gets pid 7. *)
Definition w_ok : collab :=
  {| kmm_zalloc_ret := 100; up_addrenv_select_ret := 0;
     up_addrenv_heapsize_ret := 65536; kumm_malloc_ret := 200;
     task_init_ret := 0; task_init_errno := 0; task_init_pid := 7;
     up_addrenv_clone_ret := 0; task_activate_ret := 0;
     task_activate_errno := 0; up_addrenv_restore_ret := 0 |}.

Definition w_no_stack : collab :=
  {| kmm_zalloc_ret := 100; up_addrenv_select_ret := 0;
     up_addrenv_heapsize_ret := 65536; kumm_malloc_ret := NULL;
     task_init_ret := 0; task_init_errno := 0; task_init_pid := 7;
     up_addrenv_clone_ret := 0; task_activate_ret := 0;
     task_activate_errno := 0; up_addrenv_restore_ret := 0 |}.

Definition w_init_fails : collab :=
  {| kmm_zalloc_ret := 100; up_addrenv_select_ret := 0;
     up_addrenv_heapsize_ret := 65536; kumm_malloc_ret := 200;
     task_init_ret := -1; task_init_errno := 12; task_init_pid := 7;
     up_addrenv_clone_ret := 0; task_activate_ret := 0;
     task_activate_errno := 0; up_addrenv_restore_ret := 0 |}.

Definition w_activate_fails : collab :=
  {| kmm_zalloc_ret := 100; up_addrenv_select_ret := 0;
     up_addrenv_heapsize_ret := 65536; kumm_malloc_ret := 200;
     task_init_ret := 0; task_init_errno := 0; task_init_pid := 7;
     up_addrenv_clone_ret := 0; task_activate_ret := -1;
     task_activate_errno := 3; up_addrenv_restore_ret := 0 |}.

Definition w_restore_fails : collab :=
  {| kmm_zalloc_ret := 100; up_addrenv_select_ret := 0;
     up_addrenv_heapsize_ret := 65536; kumm_malloc_ret := 200;
     task_init_ret := 0; task_init_errno := 0; task_init_pid := 7;
     up_addrenv_clone_ret := 0; task_activate_ret := 0;
     task_activate_errno := 0; up_addrenv_restore_ret := -22 |}.

(** What these kernels make of a launch of [bin_hello] by [st_caller]. *)
Definition st_no_stack : kstate :=
  {| errno := ENOMEM; addrenv_cur := 1; tcb_mem := tcb_zero |}.

Definition evs_no_stack : list event :=
  [Ekmm_zalloc 100; Eup_addrenv_select 9 1 0; Eumm_initialize 4096 65536;
   Ekumm_malloc 2048 NULL; Eup_addrenv_restore 1 0; Ekmm_free 100;
   Eset_errno ENOMEM].

Definition st_activate_fails : kstate :=
  {| errno := 3; addrenv_cur := 1;
     tcb_mem := {| pid := 7; stack_alloc_ptr := NULL; dspace := NULL;
                   tg_flags := 0; group_addrenv := 0; starthook := None |} |}.

Definition evs_activate_fails : list event :=
  [Ekmm_zalloc 100; Ekumm_malloc 2048 200;
   Etask_init 100 100 200 2048 16384 0;
   Etcb_get_pid 100 7; Etask_activate 100 (-1);
   Etcb_set_stack_alloc_ptr 100 NULL;
   Esched_releasetcb 100 TCB_FLAG_TTYPE_TASK NULL;
   Ekumm_free 200; Eset_errno 3].

Definition st_init_fails : kstate :=
  {| errno := 12; addrenv_cur := 9; tcb_mem := tcb_zero |}.

Definition evs_init_fails : list event :=
  [Ekmm_zalloc 100; Eup_addrenv_select 9 1 0; Eumm_initialize 4096 65536;
   Ekumm_malloc 2048 200; Etask_init 100 100 200 2048 16384 (-1);
   Etcb_set_stack_alloc_ptr 100 NULL;
   Esched_releasetcb 100 TCB_FLAG_TTYPE_TASK NULL;
   Ekumm_free 200; Eset_errno 12].

Definition st_restore_fails : kstate :=
  {| errno := 22; addrenv_cur := 9;
     tcb_mem := {| pid := 7; stack_alloc_ptr := NULL; dspace := NULL;
                   tg_flags := GROUP_FLAG_ADDRENV; group_addrenv := 9;
                   starthook := Some bin_hello |} |}.

Definition evs_restore_fails : list event :=
  [Ekmm_zalloc 100; Eup_addrenv_select 9 1 0; Eumm_initialize 4096 65536;
   Ekumm_malloc 2048 200; Etask_init 100 100 200 2048 16384 0;
   Eup_addrenv_clone 9 100 0; Etcb_set_tg_flags 100 GROUP_FLAG_ADDRENV;
   Etask_starthook 100; Etcb_get_pid 100 7; Etask_activate 100 0;
   Eup_addrenv_restore 1 (-22);
   Etcb_set_stack_alloc_ptr 100 NULL;
   Esched_releasetcb 100 TCB_FLAG_TTYPE_TASK NULL;
   Ekumm_free 200; Eset_errno 22].

Definition st_ok_addrenv : kstate :=
  {| errno := 0; addrenv_cur := 1;
     tcb_mem := {| pid := 7; stack_alloc_ptr := 200; dspace := NULL;
                   tg_flags := GROUP_FLAG_ADDRENV; group_addrenv := 9;
                   starthook := Some bin_hello |} |}.

Definition evs_ok_addrenv : list event :=
  [Ekmm_zalloc 100; Eup_addrenv_select 9 1 0; Eumm_initialize 4096 65536;
   Ekumm_malloc 2048 200; Etask_init 100 100 200 2048 16384 0;
   Eup_addrenv_clone 9 100 0; Etcb_set_tg_flags 100 GROUP_FLAG_ADDRENV;
   Etask_starthook 100; Etcb_get_pid 100 7; Etask_activate 100 0;
   Eup_addrenv_restore 1 0].

Definition st_ok_flat : kstate :=
  {| errno := 0; addrenv_cur := 1;
     tcb_mem := {| pid := 7; stack_alloc_ptr := 200; dspace := NULL;
                   tg_flags := 0; group_addrenv := 0; starthook := None |} |}.

Definition evs_ok_flat : list event :=
  [Ekmm_zalloc 100; Ekumm_malloc 2048 200;
   Etask_init 100 100 200 2048 16384 0;
   Etcb_get_pid 100 7; Etask_activate 100 0].

(* ------------------------------------------------------------------------ *)
(** ** More ways to read a trace *)

(** What only the error labels do: give memory back, release the
    descriptor, clear its stack pointer, write [errno]. *)
Definition is_cleanup (e : event) : bool :=
  match e with
  | Ekmm_free _ | Ekumm_free _ | Esched_releasetcb _ _ _
  | Etcb_set_stack_alloc_ptr _ _ | Eset_errno _ => true
  | _ => false
  end.

(** The two ways the descriptor at [tcb] is given up: [kmm_free(tcb)] under
    [errout_with_tcb], [sched_releasetcb(&tcb->cmn, ...)] under
    [errout_with_stack]. *)
Definition releases_descriptor (tcb : Z) (e : event) : bool :=
  match e with
  | Ekmm_free p => p =? tcb
  | Esched_releasetcb p _ _ => p =? tcb
  | _ => false
  end.

Definition is_task_init (e : event) : bool :=
  match e with
  | Etask_init _ _ _ _ _ _ => true
  | _ => false
  end.

Definition is_sched_releasetcb (e : event) : bool :=
  match e with
  | Esched_releasetcb _ _ _ => true
  | _ => false
  end.

(** What stands under [#ifdef CONFIG_ARCH_ADDRENV]. *)
Definition is_addrenv_event (e : event) : bool :=
  match e with
  | Eup_addrenv_select _ _ _ | Eumm_initialize _ _ | Eup_addrenv_clone _ _ _
  | Etcb_set_tg_flags _ _ | Eup_addrenv_restore _ _ => true
  | _ => false
  end.

Definition is_set_errno (e : event) : bool :=
  match e with
  | Eset_errno _ => true
  | _ => false
  end.

(** No descriptor can be had. *)
Definition w_no_tcb : collab :=
  {| kmm_zalloc_ret := NULL; up_addrenv_select_ret := 0;
     up_addrenv_heapsize_ret := 65536; kumm_malloc_ret := 200;
     task_init_ret := 0; task_init_errno := 0; task_init_pid := 7;
     up_addrenv_clone_ret := 0; task_activate_ret := 0;
     task_activate_errno := 0; up_addrenv_restore_ret := 0 |}.

(** The image's address environment cannot be selected. *)
Definition w_select_fails : collab :=
  {| kmm_zalloc_ret := 100; up_addrenv_select_ret := -22;
     up_addrenv_heapsize_ret := 65536; kumm_malloc_ret := 200;
     task_init_ret := 0; task_init_errno := 0; task_init_pid := 7;
     up_addrenv_clone_ret := 0; task_activate_ret := 0;
     task_activate_errno := 0; up_addrenv_restore_ret := 0 |}.

Definition st_select_fails : kstate :=
  {| errno := 22; addrenv_cur := 1; tcb_mem := tcb_zero |}.

Definition evs_select_fails : list event :=
  [Ekmm_zalloc 100; Eup_addrenv_select 9 1 (-22); Ekmm_free 100;
   Eset_errno 22].

(** A call whose result [exec_module] takes for a failure: NULL from an
    allocator, a negative value from a collaborator. *)
Definition step_fails (e : event) : bool :=
  match e with
  | Ekmm_zalloc p => p =? NULL
  | Eup_addrenv_select _ _ r => r <? 0
  | Ekumm_malloc _ p => p =? NULL
  | Etask_init _ _ _ _ _ r => r <? 0
  | Eup_addrenv_clone _ _ r => r <? 0
  | Etask_activate _ r => r <? 0
  | Eup_addrenv_restore _ r => r <? 0
  | _ => false
  end.

(** Among them, the steps between [task_init] and the start of the task:
    the clone of the address environment and the activation. *)
Definition fails_before_start (e : event) : bool :=
  match e with
  | Eup_addrenv_clone _ _ r => r <? 0
  | Etask_activate _ r => r <? 0
  | _ => false
  end.

(* ------------------------------------------------------------------------ *)
(** ** Proof support *)

(** Unfolds the launch sequence down to the tests on collaborator results. *)
Ltac launch_unfold_in H :=
  cbv beta iota zeta delta
    [exec_module errout errout_with_tcb errout_with_addrenv errout_with_stack
     kmm_zalloc up_addrenv_select up_addrenv_restore
     umm_initialize kumm_malloc kumm_free kmm_free get_errno set_errno
     task_init up_initial_state up_addrenv_clone task_starthook task_activate
     sched_releasetcb tcb_set_dspace tcb_or_tg_flags tcb_get_pid
     tcb_set_stack_alloc_ptr bind ret fault log put_errno put_addrenv put_tcb
     get_tcb when deref app fst snd andb
     CONFIG_DEBUG CONFIG_ARCH_ADDRENV CONFIG_PIC CONFIG_BINFMT_CONSTRUCTORS
     CONFIG_ARCH_HEAP_VBASE] in H;
  cbn [errno addrenv_cur tcb_mem
       pid stack_alloc_ptr dspace tg_flags group_addrenv starthook] in H.

(** The test an unfolded run is waiting for: the scrutinee at the head of
    [t], so that tests are met in the order the function makes them. *)
Ltac blocker t :=
  match t with
  | match ?c with _ => _ end => blocker c
  | ?f _ => blocker f
  | match ?c with _ => _ end => c
  end.

(** Follows every path of a run [H : exec_module ... = _]: one goal per
    path, with the tests that lead there as hypotheses. *)
Ltac launch_paths H :=
  repeat (launch_unfold_in H;
          lazymatch type of H with
          | None = Some _ => discriminate H
          | Some _ = None => discriminate H
          | Some _ = Some _ => injection H as ? ? ?
          | None = None => fail
          | ?l = _ =>
              let c := blocker l in
              first [ match goal with E : c = _ |- _ => rewrite E in H end
                    | destruct c eqn:? ]
          end).

(** Every run of [exec_module] follows one of the rules of [launch_run]. *)
Lemma exec_module_run cfg w binp s r s' evs :
  exec_module cfg w binp s = Some (r, s', evs) ->
  launch_run cfg w s binp r s' evs.
Proof.
  intros H.
  destruct cfg as [[|] [|] [|] [|] vbase];
    launch_paths H; subst;
    solve [ econstructor;
            first [ assumption | reflexivity
                  | match goal with
                    | E : ?c = _ |- context [?c] => rewrite E; reflexivity
                    end ] ].
Qed.

(** [exec_module] faults only when it is handed a NULL descriptor in a
    build that does not check it. *)
Lemma exec_module_defined cfg w binp s :
  CONFIG_DEBUG cfg = true \/ binp <> None ->
  exists r s' evs, exec_module cfg w binp s = Some (r, s', evs).
Proof.
  intros Hdef.
  destruct (exec_module cfg w binp s) as [[[r s'] evs]|] eqn:H; eauto.
  exfalso.
  destruct cfg as [[|] [|] [|] [|] vbase]; launch_paths H; subst;
    solve [ discriminate | destruct Hdef; [discriminate | congruence] ].
Qed.

(** Membership of an event in an explicit trace: one goal per position
    where the head constructors agree. *)
Ltac in_cases H :=
  simpl in H;
  repeat match type of H with
         | _ \/ _ => destruct H as [H|H]; [ try discriminate H | ]
         end;
  try contradiction H.

Ltac in_list := simpl; repeat first [ left; reflexivity | right ].

(** A property that computes, of every event of an explicit trace. *)
Ltac in_all H :=
  simpl in H; repeat (destruct H as [<-|H]; [reflexivity|]); contradiction H.

(** Makes the traces of a path explicit, for each configuration. *)
Ltac launch_concrete cfg :=
  destruct cfg as [dbg [|] [|] [|] vbase];
  cbv [ev_select ev_heap ev_stack ev_init ev_pic ev_clone ev_hook ev_activate
       ev_restore ev_unwind env_selected app
       CONFIG_DEBUG CONFIG_ARCH_ADDRENV CONFIG_PIC CONFIG_BINFMT_CONSTRUCTORS
       CONFIG_ARCH_HEAP_VBASE] in *.

(** A test that went one way although its operands say the other. *)
Ltac absurd_test :=
  match goal with
  | E : (?a =? ?b) = false, H : ?a = ?b |- _ =>
      rewrite H in E; discriminate E
  | E : (?a <? 0) = true, H : 0 <= ?a |- _ =>
      apply Z.ltb_lt in E; lia
  | E : (?a <? 0) = false, H : ?a < 0 |- _ =>
      apply Z.ltb_ge in E; lia
  | E : true = false |- _ => discriminate E
  | E : false = true |- _ => discriminate E
  end.

(** An event [e] of an explicit trace that is a failing call, [Hf] saying so:
    one goal per call of the trace that the tests of the path let fail. *)
Ltac failing_event He Hf :=
  simpl in He;
  repeat (destruct He as [He|He];
          [ rewrite <- He in Hf; simpl in Hf; cbn [andb] in *;
            try discriminate Hf; try congruence | ]);
  try contradiction He.

(** Rewrites with the tests of a path. *)
Ltac use_tests :=
  repeat match goal with
         | E : ?c = true |- context [?c] => rewrite E; cbn [andb]
         | E : ?c = false |- context [?c] => rewrite E; cbn [andb]
         end.

(** The loop of [exec_ctors] calls the first [n] entries, in order. *)
Lemma exec_ctors_loop_calls n :
  forall ctor s, (n <= length ctor)%nat ->
  exec_ctors_loop n ctor s = Some (tt, s, map Ector (firstn n ctor)).
Proof.
  induction n as [|n IH]; intros ctor s Hlen.
  - reflexivity.
  - destruct ctor as [|fn ctor']; simpl in Hlen; [lia|].
    simpl. unfold bind, log.
    rewrite IH by lia. reflexivity.
Qed.

(* ------------------------------------------------------------------------ *)
(** ** The address environment on the error exits *)

(** C1 fails on the code.  The caller runs in address environment 1 and
    launches an image whose environment is 9; [up_addrenv_select] succeeds
    and [task_init] then fails.  [errout_with_stack] goes to [errout] past
    [errout_with_addrenv]: [exec_module] returns [ERROR] without any call of
    [up_addrenv_restore], and environment 9 is still the selected one. *)
Theorem exec_module_init_failure_no_restore :
  exec_module cfg_addrenv w_init_fails (Some bin_hello) st_caller =
    Some (ERROR, st_init_fails, evs_init_fails) /\
  In (Eup_addrenv_select 9 1 0) evs_init_fails /\
  (forall oldenv r, ~ In (Eup_addrenv_restore oldenv r) evs_init_fails) /\
  addrenv_cur st_caller = 1 /\
  addrenv_cur st_init_fails = 9.
Proof.
  split; [reflexivity|]. split; [in_list|]. split; [|split; reflexivity].
  intros oldenv r Hin. in_cases Hin.
Qed.

(* ------------------------------------------------------------------------ *)
(** ** The stack on the error exits *)

(** C2 does not hold: when [task_activate] refuses the task, after
    [task_init] has accepted it, the release of the descriptor frees no
    stack and the one free of the stack is the [kumm_free] of [exec_module]
    itself. *)
Lemma exec_module_frees_stack_itself :
  exec_module cfg_flat w_activate_fails (Some bin_hello) st_caller =
    Some (ERROR, st_activate_fails, evs_activate_fails) /\
  In (Etask_init 100 100 200 2048 16384 0) evs_activate_fails /\
  count (release_frees 200) evs_activate_fails = 0%nat /\
  count (sequencer_frees 200) evs_activate_fails = 1%nat.
Proof.
  split; [reflexivity|]. split; [in_list|]. split; reflexivity.
Qed.

(** C2, as the code has it.  In a run where [task_init] has accepted the
    descriptor and a later step up to the activation fails (the clone of the
    address environment or [task_activate] returns a negative value), the
    stack is freed exactly once, by the [kumm_free] of [exec_module] itself;
    the release of the descriptor does not free it. *)
Theorem exec_module_stack_freed_once cfg w binp s r s' evs
    tcb prio stack size entry ir e :
  exec_module cfg w binp s = Some (r, s', evs) ->
  In (Etask_init tcb prio stack size entry ir) evs ->
  0 <= ir ->
  In e evs ->
  fails_before_start e = true ->
  r = ERROR /\
  count (sequencer_frees stack) evs = 1%nat /\
  count (release_frees stack) evs = 0%nat.
Proof.
  intros H Hinit Hir He Hf.
  apply exec_module_run in H.
  inversion H; subst; clear H; launch_concrete cfg;
    in_cases Hinit; injection Hinit as ? ? ? ? ? ?; subst;
    try absurd_test.
  all: failing_event He Hf.
  all: split; [reflexivity|].
  all: unfold count; simpl; rewrite Z.eqb_refl; split; reflexivity.
Qed.

Lemma exec_module_stack_freed_once_witness :
  exec_module cfg_flat w_activate_fails (Some bin_hello) st_caller =
    Some (ERROR, st_activate_fails, evs_activate_fails) /\
  count (sequencer_frees 200) evs_activate_fails = 1%nat /\
  count (release_frees 200) evs_activate_fails = 0%nat.
Proof.
  assert (Hrun : exec_module cfg_flat w_activate_fails (Some bin_hello)
                   st_caller
                 = Some (ERROR, st_activate_fails, evs_activate_fails))
    by reflexivity.
  split; [exact Hrun|].
  refine (proj2 (exec_module_stack_freed_once cfg_flat w_activate_fails
                   (Some bin_hello) st_caller ERROR st_activate_fails
                   evs_activate_fails 100 100 200 2048 16384 0
                   (Etask_activate 100 (-1)) Hrun _ _ _ _)).
  - in_list.
  - exact (Z.le_refl 0).
  - in_list.
  - reflexivity.
Defined.

(** C5.  In a run where [task_init] has accepted the descriptor and a
    step fails after it (the clone of the address environment, the
    activation or the restore of the caller's environment returns a negative
    value), [exec_module] returns [ERROR] and the trace ends with the three
    steps of [errout_with_stack] in this order: [tcb->cmn.stack_alloc_ptr]
    is set to NULL, [sched_releasetcb] is called and finds no stack in the
    descriptor, [kumm_free] is called on the stack; then [errno] is set.
    Nothing before them frees the stack, so it is freed once. *)
Theorem errout_with_stack_order cfg w binp s r s' evs
    tcb prio stack size entry ir e :
  exec_module cfg w binp s = Some (r, s', evs) ->
  In (Etask_init tcb prio stack size entry ir) evs ->
  0 <= ir ->
  In e evs ->
  step_fails e = true ->
  r = ERROR /\
  exists pre err,
    evs = pre ++ [Etcb_set_stack_alloc_ptr tcb NULL;
                  Esched_releasetcb tcb TCB_FLAG_TTYPE_TASK NULL;
                  Ekumm_free stack;
                  Eset_errno err] /\
    errno s' = err /\
    (forall e0, In e0 pre ->
       sequencer_frees stack e0 = false /\ release_frees stack e0 = false) /\
    count (fun e0 => sequencer_frees stack e0 || release_frees stack e0) evs
      = 1%nat.
Proof.
  intros H Hinit Hir He Hf.
  apply exec_module_run in H.
  assert (Hpre : exists pre, pre = firstn (length evs - 4) evs) by eauto.
  destruct Hpre as (pre & Hpre).
  inversion H; subst evs; subst r; clear H; launch_concrete cfg;
    in_cases Hinit; injection Hinit as ? ? ? ? ? ?; subst tcb stack ir;
    try absurd_test.
  all: failing_event He Hf.
  all: split; [reflexivity|].
  all: exists pre; subst pre; simpl; eexists.
  all: split; [reflexivity|]; split; [assumption|].
  all: split; [intros e0 He0; split; in_all He0|].
  all: unfold count; simpl; rewrite Z.eqb_refl; reflexivity.
Qed.

Lemma errout_with_stack_order_witness :
  exec_module cfg_flat w_activate_fails (Some bin_hello) st_caller =
    Some (ERROR, st_activate_fails, evs_activate_fails) /\
  exists pre,
    evs_activate_fails =
      pre ++ [Etcb_set_stack_alloc_ptr 100 NULL;
              Esched_releasetcb 100 TCB_FLAG_TTYPE_TASK NULL;
              Ekumm_free 200;
              Eset_errno 3].
Proof.
  assert (Hrun : exec_module cfg_flat w_activate_fails (Some bin_hello)
                   st_caller
                 = Some (ERROR, st_activate_fails, evs_activate_fails))
    by reflexivity.
  split; [exact Hrun|].
  destruct (errout_with_stack_order cfg_flat w_activate_fails
              (Some bin_hello) st_caller ERROR st_activate_fails
              evs_activate_fails 100 100 200 2048 16384 0
              (Etask_activate 100 (-1)) Hrun)
    as (_ & pre & err & Hpre & Herr & _).
  - in_list.
  - exact (Z.le_refl 0).
  - in_list.
  - reflexivity.
  - exists pre. simpl in Herr. rewrite Herr. exact Hpre.
Defined.

(* ------------------------------------------------------------------------ *)
(** ** Failure after the activation *)

(** C3 fails on the code.  [task_activate] succeeds and
    [up_addrenv_restore] then returns -22: [exec_module] returns [ERROR] with
    [errno] 22, as C3 says, but on its way out it goes through
    [errout_with_stack]: after the activation the trace has the write to the
    descriptor, its release and the free of the stack of the task that was
    just started. *)
Theorem exec_module_restore_failure_unwinds :
  exec_module cfg_addrenv w_restore_fails (Some bin_hello) st_caller =
    Some (ERROR, st_restore_fails, evs_restore_fails) /\
  errno st_restore_fails = 22 /\
  exists pre,
    evs_restore_fails =
      pre ++ [Etask_activate 100 0; Eup_addrenv_restore 1 (-22);
              Etcb_set_stack_alloc_ptr 100 NULL;
              Esched_releasetcb 100 TCB_FLAG_TTYPE_TASK NULL;
              Ekumm_free 200; Eset_errno 22].
Proof.
  split; [reflexivity|]. split; [reflexivity|].
  exists (firstn 9 evs_restore_fails). reflexivity.
Qed.

(* ------------------------------------------------------------------------ *)
(** ** Input validation *)

(** C4, as the code has it.  In a build with [CONFIG_DEBUG], a NULL
    descriptor, a NULL entry point or a stack size that is not positive
    makes [exec_module] return [ERROR] with [errno] set to [EINVAL], and
    setting [errno] is all it does: no allocator is called. *)
Theorem exec_module_sanity_einval cfg w binp s :
  CONFIG_DEBUG cfg = true ->
  (binp = None \/
   exists b, binp = Some b /\ (entrypt b = NULL \/ stacksize b <= 0)) ->
  exec_module cfg w binp s =
    Some (ERROR,
          {| errno := EINVAL; addrenv_cur := addrenv_cur s;
             tcb_mem := tcb_mem s |},
          [Eset_errno EINVAL]).
Proof.
  intros Hdbg Hbad.
  assert (Hs : sanity_fails binp = true).
  { destruct Hbad as [-> | (b & -> & [He | Hz])]; simpl.
    - reflexivity.
    - rewrite He. reflexivity.
    - apply orb_true_iff. right. apply Z.leb_le. exact Hz. }
  unfold exec_module. rewrite Hdbg, Hs. reflexivity.
Qed.

Lemma exec_module_sanity_einval_witness :
  exec_module cfg_flat w_ok (Some bin_no_stack) st_caller =
    Some (ERROR, {| errno := EINVAL; addrenv_cur := 1; tcb_mem := tcb_zero |},
          [Eset_errno EINVAL]).
Proof.
  apply (exec_module_sanity_einval cfg_flat w_ok (Some bin_no_stack)
           st_caller).
  - reflexivity.
  - right. exists bin_no_stack. split; [reflexivity|].
    right. exact (Z.le_refl 0).
Defined.

(** C4 does not hold without [CONFIG_DEBUG]: a stack size of zero is not
    looked at, the descriptor and the stack are asked from the allocators,
    and the failure reported is that of the stack allocation. *)
Lemma exec_module_unchecked_zero_stack :
  stacksize bin_no_stack <= 0 /\
  exists s' evs,
    exec_module cfg_nodebug w_no_stack (Some bin_no_stack) st_caller =
      Some (ERROR, s', evs) /\
    errno s' = ENOMEM /\ errno s' <> EINVAL /\
    evs = [Ekmm_zalloc 100; Ekumm_malloc 0 NULL; Ekmm_free 100;
           Eset_errno ENOMEM].
Proof.
  split; [exact (Z.le_refl 0)|].
  eexists. eexists. split; [reflexivity|].
  repeat split. intros Heq. discriminate Heq.
Qed.

(* ------------------------------------------------------------------------ *)
(** ** Failure of the stack allocation *)

(** C6.  In a run where [kumm_malloc] returns NULL, [exec_module] returns
    [ERROR] with [errno] set to [ENOMEM]; the descriptor has been given back
    with [kmm_free]; with address environments, [up_addrenv_restore] has been
    called on the saved environment, which is selected again unless that call
    fails; and the descriptor was never handed to the scheduler. *)
Theorem exec_module_stack_enomem cfg w binp s r s' evs size :
  exec_module cfg w binp s = Some (r, s', evs) ->
  In (Ekumm_malloc size NULL) evs ->
  r = ERROR /\ errno s' = ENOMEM /\
  In (Ekmm_free (kmm_zalloc_ret w)) evs /\
  (CONFIG_ARCH_ADDRENV cfg = true ->
   In (Eup_addrenv_restore (addrenv_cur s) (up_addrenv_restore_ret w)) evs /\
   (0 <= up_addrenv_restore_ret w -> addrenv_cur s' = addrenv_cur s)) /\
  (CONFIG_ARCH_ADDRENV cfg = false -> addrenv_cur s' = addrenv_cur s) /\
  (forall e, In e evs -> scheduler_call e = false).
Proof.
  intros H Hin.
  apply exec_module_run in H.
  inversion H; subst; clear H; launch_concrete cfg;
    in_cases Hin; try (injection Hin as ? ?; subst; absurd_test).
  all: split; [reflexivity|]; split; [assumption|]; split; [in_list|].
  all: split; [|split; [|intros e He; in_all He]].
  all: intros Hcfg; try discriminate Hcfg; try assumption.
  all: split; [in_list|]; intros Hrs.
  all: match goal with E : addrenv_cur _ = _ |- _ => rewrite E end; simpl.
  all: destruct (Z.ltb_spec (up_addrenv_restore_ret w) 0); [lia|reflexivity].
Qed.

Lemma exec_module_stack_enomem_witness :
  exec_module cfg_addrenv w_no_stack (Some bin_hello) st_caller =
    Some (ERROR, st_no_stack, evs_no_stack) /\
  In (Ekumm_malloc 2048 NULL) evs_no_stack /\
  errno st_no_stack = ENOMEM /\
  In (Ekmm_free 100) evs_no_stack /\
  In (Eup_addrenv_restore 1 0) evs_no_stack.
Proof.
  assert (Hrun : exec_module cfg_addrenv w_no_stack (Some bin_hello) st_caller
                 = Some (ERROR, st_no_stack, evs_no_stack)) by reflexivity.
  assert (Hin : In (Ekumm_malloc 2048 NULL) evs_no_stack) by in_list.
  destruct (exec_module_stack_enomem _ _ _ _ _ _ _ _ Hrun Hin)
    as (_ & Herr & Hfree & Henv & _).
  split; [exact Hrun|]. split; [exact Hin|]. split; [exact Herr|].
  split; [exact Hfree|]. exact (proj1 (Henv eq_refl)).
Defined.

(* ------------------------------------------------------------------------ *)
(** ** The identity that is returned *)

(** C7.  A run that returns something else than [ERROR] returns the pid
    of the descriptor, the one [task_init] gave the task and the descriptor
    still holds; it is the value read from [tcb->cmn.pid], that read comes
    before the one call of [task_activate], and nothing after that call
    touches the descriptor. *)
Theorem exec_module_pid_before_activate cfg w binp s r s' evs :
  exec_module cfg w binp s = Some (r, s', evs) ->
  r <> ERROR ->
  r = task_init_pid w /\
  pid (tcb_mem s') = r /\
  exists pre post,
    evs = pre ++ Etask_activate (kmm_zalloc_ret w) (task_activate_ret w)
                   :: post /\
    In (Etcb_get_pid (kmm_zalloc_ret w) r) pre /\
    (forall e, In e pre -> is_task_activate e = false) /\
    (forall e, In e post -> uses_tcb e = false).
Proof.
  intros H Hok.
  apply exec_module_run in H.
  inversion H; subst; clear H; try (exfalso; apply Hok; reflexivity).
  split; [reflexivity|]. split; [assumption|].
  exists (removelast (ev_activate cfg w s b)), (ev_restore cfg w s).
  launch_concrete cfg; simpl.
  all: split; [reflexivity|]; split; [in_list|].
  all: split; intros e He; in_all He.
Qed.

Lemma exec_module_pid_before_activate_witness :
  exec_module cfg_addrenv w_ok (Some bin_hello) st_caller =
    Some (7, st_ok_addrenv, evs_ok_addrenv) /\
  pid (tcb_mem st_ok_addrenv) = 7 /\
  exists pre post,
    evs_ok_addrenv = pre ++ Etask_activate 100 0 :: post /\
    In (Etcb_get_pid 100 7) pre.
Proof.
  assert (Hrun : exec_module cfg_addrenv w_ok (Some bin_hello) st_caller
                 = Some (7, st_ok_addrenv, evs_ok_addrenv)) by reflexivity.
  split; [exact Hrun|].
  destruct (exec_module_pid_before_activate _ _ _ _ _ _ _ Hrun)
    as (_ & Hmem & pre & post & Hevs & Hpid & _).
  - intros Heq. discriminate Heq.
  - split; [exact Hmem|].
    exists pre, post. split; [exact Hevs | exact Hpid].
Defined.

(* ------------------------------------------------------------------------ *)
(** ** The constructor hook *)

(** C8.  When the array [binp->ctors] holds at least [binp->nctors]
    entries, [exec_ctors] returns after calling exactly the first [nctors]
    of them, in array order and each once; with [nctors = 0] it calls
    nothing. *)
Theorem exec_ctors_calls_in_order binp s :
  (Z.to_nat (nctors binp) <= length (ctors binp))%nat ->
  exec_ctors (Some binp) s =
    Some (tt, s, map Ector (firstn (Z.to_nat (nctors binp)) (ctors binp))) /\
  (nctors binp = 0 -> exec_ctors (Some binp) s = Some (tt, s, [])).
Proof.
  intros Hlen.
  assert (Hrun : exec_ctors (Some binp) s =
    Some (tt, s, map Ector (firstn (Z.to_nat (nctors binp)) (ctors binp)))).
  { unfold exec_ctors, deref, bind, ret.
    rewrite exec_ctors_loop_calls by exact Hlen. reflexivity. }
  split; [exact Hrun|].
  intros Hzero. rewrite Hrun, Hzero. reflexivity.
Qed.

Lemma exec_ctors_calls_in_order_witness :
  exec_ctors (Some bin_hello) st_caller =
    Some (tt, st_caller, [Ector 24576; Ector 24580; Ector 24584]).
Proof.
  apply (exec_ctors_calls_in_order bin_hello st_caller).
  exact (le_n 3).
Defined.

(* ------------------------------------------------------------------------ *)
(** ** Where the stack comes from *)

(** C9 does not hold in a build without address environments: the stack
    handed to [task_init] is the block [kumm_malloc] returned, from the user
    heap; the kernel allocator has served the descriptor only. *)
Lemma exec_module_flat_stack_from_user_heap :
  CONFIG_ARCH_ADDRENV cfg_flat = false /\
  exec_module cfg_flat w_ok (Some bin_hello) st_caller =
    Some (7, st_ok_flat, evs_ok_flat) /\
  In (Etask_init 100 100 200 2048 16384 0) evs_ok_flat /\
  heaps_of 200 evs_ok_flat = [UserHeap].
Proof.
  split; [reflexivity|]. split; [reflexivity|]. split; [in_list|].
  reflexivity.
Qed.

(** C9, as the code has it.  In every build the stack handed to
    [task_init] is the block returned by the call
    [kumm_malloc(binp->stacksize)], the allocator of the user heap; the only
    other allocation of the run is the [kmm_zalloc] of the descriptor; and
    with address environments the heap has been set up with [umm_initialize]
    before the stack is taken from it. *)
Theorem exec_module_stack_from_kumm_malloc cfg w binp s r s' evs
    tcb prio stack size entry ir :
  exec_module cfg w binp s = Some (r, s', evs) ->
  In (Etask_init tcb prio stack size entry ir) evs ->
  exists b pre post,
    binp = Some b /\ size = stacksize b /\ stack <> NULL /\
    evs = pre ++ Ekumm_malloc (stacksize b) stack :: post /\
    (forall e, In e (pre ++ post) -> allocation e <> None ->
               e = Ekmm_zalloc tcb) /\
    (CONFIG_ARCH_ADDRENV cfg = true ->
     In (Eumm_initialize (CONFIG_ARCH_HEAP_VBASE cfg)
           (up_addrenv_heapsize_ret w)) pre).
Proof.
  intros H Hinit.
  apply exec_module_run in H.
  inversion H; subst; clear H.
  1-2: in_cases Hinit.
  1-2: exfalso; launch_concrete cfg; in_cases Hinit.
  all: exists b,
         (firstn (if CONFIG_ARCH_ADDRENV cfg then 3 else 1)%nat
            (ev_stack cfg w s b)).
  all: launch_concrete cfg; simpl.
  all: eexists.
  all: in_cases Hinit; injection Hinit as ? ? ? ? ? ?; subst.
  all: split; [reflexivity|]; split; [reflexivity|].
  all: split; [intros Hnull; absurd_test|].
  all: split; [reflexivity|].
  all: split;
    [ intros e He Ha; simpl in He;
      repeat (destruct He as [<-|He];
              [first [reflexivity | exfalso; apply Ha; reflexivity]|]);
      contradiction He
    | intros Hc; first [discriminate Hc | in_list] ].
Qed.

Lemma exec_module_stack_from_kumm_malloc_witness :
  exec_module cfg_addrenv w_ok (Some bin_hello) st_caller =
    Some (7, st_ok_addrenv, evs_ok_addrenv) /\
  exists pre post,
    evs_ok_addrenv = pre ++ Ekumm_malloc 2048 200 :: post /\
    In (Eumm_initialize 4096 65536) pre.
Proof.
  assert (Hrun : exec_module cfg_addrenv w_ok (Some bin_hello) st_caller
                 = Some (7, st_ok_addrenv, evs_ok_addrenv)) by reflexivity.
  split; [exact Hrun|].
  destruct (exec_module_stack_from_kumm_malloc cfg_addrenv w_ok
              (Some bin_hello) st_caller 7 st_ok_addrenv evs_ok_addrenv
              100 100 200 2048 16384 0 Hrun)
    as (b & pre & post & Hb & _ & _ & Hevs & _ & Hinit).
  - in_list.
  - injection Hb as <-.
    exists pre, post. split; [exact Hevs | exact (Hinit eq_refl)].
Defined.

(* ------------------------------------------------------------------------ *)
(** ** What is returned *)

(** C10.  Unless it is handed a NULL descriptor that the build does not
    check, [exec_module] returns.  When no step fails it returns the pid that
    [task_init] gave the task, which is positive when the scheduler's pids
    are; when a step fails it returns [ERROR] and [errno] holds the
    diagnostic of the first step that failed.  No collaborator is called
    twice. *)
Theorem exec_module_return_contract cfg w binp s :
  CONFIG_DEBUG cfg = true \/ binp <> None ->
  0 < task_init_pid w ->
  exists r s' evs,
    exec_module cfg w binp s = Some (r, s', evs) /\
    match launch_failure cfg w binp with
    | None => r = task_init_pid w /\ 0 < r
    | Some code => r = ERROR /\ errno s' = code
    end /\
    NoDup (calls evs).
Proof.
  intros Hdef Hpid.
  destruct (exec_module_defined cfg w binp s Hdef) as (r & s' & evs & H).
  exists r, s', evs. split; [exact H|].
  apply exec_module_run in H.
  inversion H; subst; clear H; unfold launch_failure; use_tests.
  all: split; [split; solve [reflexivity | assumption]|].
  all: launch_concrete cfg; simpl.
  all: repeat constructor; simpl; intuition discriminate.
Qed.


Lemma exec_module_return_contract_witness :
  exists r s' evs,
    exec_module cfg_addrenv w_ok (Some bin_hello) st_caller =
      Some (r, s', evs) /\
    r = 7 /\ 0 < r.
Proof.
  destruct (exec_module_return_contract cfg_addrenv w_ok (Some bin_hello)
              st_caller)
    as (r & s' & evs & Hrun & Hres & _).
  - left. reflexivity.
  - reflexivity.
  - exists r, s', evs. split; [exact Hrun | exact Hres].
Defined.

(* ------------------------------------------------------------------------ *)
(** ** The failures before the task exists *)

(** X1.  When the argument check passes or is compiled out and
    [kmm_zalloc] returns NULL, [exec_module] returns [ERROR] with [errno]
    set to [ENOMEM] after that one call: nothing is freed, nothing else is
    called, and the image descriptor is not read (it may even be NULL in a
    build without [CONFIG_DEBUG]). *)
Theorem exec_module_descriptor_enomem cfg w binp s :
  CONFIG_DEBUG cfg && sanity_fails binp = false ->
  kmm_zalloc_ret w = NULL ->
  exec_module cfg w binp s =
    Some (ERROR,
          {| errno := ENOMEM; addrenv_cur := addrenv_cur s;
             tcb_mem := tcb_mem s |},
          [Ekmm_zalloc NULL; Eset_errno ENOMEM]).
Proof.
  intros Hcheck Hnull.
  unfold exec_module. rewrite Hcheck.
  unfold kmm_zalloc, bind, log, ret. rewrite Hnull. reflexivity.
Qed.

Lemma exec_module_descriptor_enomem_witness :
  exec_module cfg_nodebug w_no_tcb None st_caller =
    Some (ERROR, {| errno := ENOMEM; addrenv_cur := 1; tcb_mem := tcb_zero |},
          [Ekmm_zalloc NULL; Eset_errno ENOMEM]).
Proof.
  apply (exec_module_descriptor_enomem cfg_nodebug w_no_tcb None st_caller);
    reflexivity.
Defined.

(** X2.  In a run where [up_addrenv_select] fails, [exec_module] returns
    [ERROR] with [errno] set to the negated return value; the run is the
    allocation of the descriptor, the failed select, [kmm_free] of the
    descriptor and the write of [errno], and nothing else: the heap is not
    initialised, no stack is allocated and [up_addrenv_restore] is not
    called, and the caller's environment is still the selected one. *)
Theorem exec_module_select_failure cfg w binp s r s' evs env oldenv sr :
  exec_module cfg w binp s = Some (r, s', evs) ->
  In (Eup_addrenv_select env oldenv sr) evs ->
  sr < 0 ->
  r = ERROR /\ errno s' = - sr /\
  addrenv_cur s' = addrenv_cur s /\
  evs = [Ekmm_zalloc (kmm_zalloc_ret w);
         Eup_addrenv_select env (addrenv_cur s) sr;
         Ekmm_free (kmm_zalloc_ret w);
         Eset_errno (- sr)].
Proof.
  intros H Hsel Hneg.
  apply exec_module_run in H.
  inversion H; subst; clear H; launch_concrete cfg;
    in_cases Hsel; injection Hsel as ? ? ?; subst;
    try (cbn [andb] in *; absurd_test).
  all: repeat split; assumption.
Qed.

Lemma exec_module_select_failure_witness :
  exec_module cfg_addrenv w_select_fails (Some bin_hello) st_caller =
    Some (ERROR, st_select_fails, evs_select_fails) /\
  errno st_select_fails = 22 /\
  addrenv_cur st_select_fails = addrenv_cur st_caller.
Proof.
  assert (Hrun : exec_module cfg_addrenv w_select_fails (Some bin_hello)
                   st_caller
                 = Some (ERROR, st_select_fails, evs_select_fails))
    by reflexivity.
  split; [exact Hrun|].
  destruct (exec_module_select_failure cfg_addrenv w_select_fails
              (Some bin_hello) st_caller ERROR st_select_fails
              evs_select_fails 9 1 (-22) Hrun)
    as (_ & Herr & Henv & _).
  - in_list.
  - reflexivity.
  - split; [exact Herr | exact Henv].
Defined.

(** X3.  In a run where [task_init] refuses the descriptor,
    [exec_module] returns [ERROR] with the [errno] that [task_init] left.
    The run ends with the refused call and the steps of [errout_with_stack]:
    the descriptor is given up through [sched_releasetcb], never through
    [kmm_free]; the stack is freed once, with [kumm_free]; and
    [task_activate] is not called. *)
Theorem exec_module_init_failure cfg w binp s r s' evs
    tcb prio stack size entry ir :
  exec_module cfg w binp s = Some (r, s', evs) ->
  In (Etask_init tcb prio stack size entry ir) evs ->
  ir < 0 ->
  r = ERROR /\ errno s' = task_init_errno w /\
  (exists pre,
     evs = pre ++ [Etask_init tcb prio stack size entry ir;
                   Etcb_set_stack_alloc_ptr tcb NULL;
                   Esched_releasetcb tcb TCB_FLAG_TTYPE_TASK NULL;
                   Ekumm_free stack;
                   Eset_errno (task_init_errno w)] /\
     forall e, In e pre -> is_cleanup e = false) /\
  count (sequencer_frees stack) evs = 1%nat /\
  (forall e, In e evs -> is_task_activate e = false).
Proof.
  intros H Hinit Hneg.
  apply exec_module_run in H.
  inversion H; subst; clear H;
    try solve [ exfalso; launch_concrete cfg; in_cases Hinit;
                injection Hinit as ? ? ? ? ? ?; subst; absurd_test ].
  set (pre := ev_stack cfg w s b).
  launch_concrete cfg;
    in_cases Hinit; injection Hinit as ? ? ? ? ? ?; subst.
  all: split; [reflexivity|]; split; [assumption|].
  all: split; [exists pre; split; [reflexivity|intros e He; in_all He]|].
  all: split; [unfold count; simpl; rewrite Z.eqb_refl; reflexivity|].
  all: intros e He; in_all He.
Qed.

Lemma exec_module_init_failure_witness :
  exec_module cfg_addrenv w_init_fails (Some bin_hello) st_caller =
    Some (ERROR, st_init_fails, evs_init_fails) /\
  errno st_init_fails = 12 /\
  count (sequencer_frees 200) evs_init_fails = 1%nat.
Proof.
  assert (Hrun : exec_module cfg_addrenv w_init_fails (Some bin_hello)
                   st_caller
                 = Some (ERROR, st_init_fails, evs_init_fails))
    by reflexivity.
  split; [exact Hrun|].
  destruct (exec_module_init_failure cfg_addrenv w_init_fails
              (Some bin_hello) st_caller ERROR st_init_fails
              evs_init_fails 100 100 200 2048 16384 (-1) Hrun)
    as (_ & Herr & _ & Hfree & _).
  - in_list.
  - reflexivity.
  - split; [exact Herr | exact Hfree].
Defined.

(* ------------------------------------------------------------------------ *)
(** ** What has been done when the task is activated *)

(** X4.  [task_activate] is called on a finished descriptor only.  In a
    run that calls it, the descriptor is the non-NULL block of [kmm_zalloc]
    and, before the call, [task_init] has accepted it with the image's
    priority, stack size and entry point and the non-NULL stack of
    [kumm_malloc]; with address environments the image's environment has
    been cloned into the task group and the group flagged; with constructors
    the start hook is registered; with PIC the data space is set and the
    initial state rebuilt. *)
Theorem exec_module_activates_initialized cfg w binp s r s' evs t a :
  exec_module cfg w binp s = Some (r, s', evs) ->
  In (Etask_activate t a) evs ->
  exists b pre post,
    binp = Some b /\ t = kmm_zalloc_ret w /\ t <> NULL /\
    kumm_malloc_ret w <> NULL /\
    evs = pre ++ Etask_activate t a :: post /\
    In (Etask_init t (priority b) (kumm_malloc_ret w) (stacksize b)
          (entrypt b) (task_init_ret w)) pre /\
    0 <= task_init_ret w /\
    (CONFIG_ARCH_ADDRENV cfg = true ->
     In (Eup_addrenv_clone (addrenv b) t (up_addrenv_clone_ret w)) pre /\
     0 <= up_addrenv_clone_ret w /\
     In (Etcb_set_tg_flags t GROUP_FLAG_ADDRENV) pre) /\
    (CONFIG_BINFMT_CONSTRUCTORS cfg = true -> In (Etask_starthook t) pre) /\
    (CONFIG_PIC cfg = true ->
     In (Etcb_set_dspace t (nth 0 (alloc b) NULL)) pre /\
     In (Eup_initial_state t) pre).
Proof.
  intros H Hact.
  apply exec_module_run in H.
  inversion H; subst; clear H;
    try solve [ exfalso; launch_concrete cfg; in_cases Hact ].
  all: exists b, (removelast (ev_activate cfg w s b)).
  all: assert (Hti : 0 <= task_init_ret w)
         by (apply Z.ltb_ge; assumption).
  all: assert (Hkz : kmm_zalloc_ret w <> NULL)
         by (apply Z.eqb_neq; assumption).
  all: assert (Hkm : kumm_malloc_ret w <> NULL)
         by (apply Z.eqb_neq; assumption).
  all: assert (Hcl : CONFIG_ARCH_ADDRENV cfg = true ->
                     0 <= up_addrenv_clone_ret w)
         by (intros Hc; apply Z.ltb_ge;
             repeat match goal with
                    | E : ?c && _ = false |- _ =>
                        rewrite Hc in E; cbn [andb] in E
                    end; assumption).
  all: launch_concrete cfg; simpl.
  all: in_cases Hact; injection Hact as <- <-.
  all: eexists.
  all: split; [reflexivity|]; split; [reflexivity|]; split; [assumption|].
  all: split; [assumption|]; split; [reflexivity|].
  all: split; [in_list|]; split; [assumption|].
  all: split; [|split]; intros Hc; try discriminate Hc.
  all: try (split; [in_list|]; split; [exact (Hcl eq_refl) | in_list]).
  all: try (split; in_list).
  all: in_list.
Qed.

Lemma exec_module_activates_initialized_witness :
  exec_module cfg_addrenv w_ok (Some bin_hello) st_caller =
    Some (7, st_ok_addrenv, evs_ok_addrenv) /\
  exists pre post,
    evs_ok_addrenv = pre ++ Etask_activate 100 0 :: post /\
    In (Etask_init 100 100 200 2048 16384 0) pre /\
    In (Eup_addrenv_clone 9 100 0) pre /\
    In (Etask_starthook 100) pre.
Proof.
  assert (Hrun : exec_module cfg_addrenv w_ok (Some bin_hello) st_caller
                 = Some (7, st_ok_addrenv, evs_ok_addrenv)) by reflexivity.
  split; [exact Hrun|].
  destruct (exec_module_activates_initialized cfg_addrenv w_ok
              (Some bin_hello) st_caller 7 st_ok_addrenv evs_ok_addrenv
              100 0 Hrun)
    as (b & pre & post & Hb & _ & _ & _ & Hevs & Hinit & _ & Haenv & Hhook
        & _).
  - in_list.
  - injection Hb as <-.
    exists pre, post. split; [exact Hevs|]. split; [exact Hinit|].
    split; [exact (proj1 (Haenv eq_refl)) | exact (Hhook eq_refl)].
Defined.

(** X5.  A run that returns something else than [ERROR] has gone through
    no error label: it frees nothing, releases nothing and does not write
    [errno], which is as the caller left it; and the address environment of
    the caller is the selected one again. *)
Theorem exec_module_success_keeps_resources cfg w binp s r s' evs :
  exec_module cfg w binp s = Some (r, s', evs) ->
  r <> ERROR ->
  (forall e, In e evs -> is_cleanup e = false) /\
  errno s' = errno s /\
  addrenv_cur s' = addrenv_cur s.
Proof.
  intros H Hok.
  apply exec_module_run in H.
  inversion H; subst; clear H; try (exfalso; apply Hok; reflexivity).
  split; [|split; assumption].
  launch_concrete cfg; intros e He; in_all He.
Qed.

Lemma exec_module_success_keeps_resources_witness :
  exec_module cfg_addrenv w_ok (Some bin_hello) st_caller =
    Some (7, st_ok_addrenv, evs_ok_addrenv) /\
  errno st_ok_addrenv = errno st_caller /\
  addrenv_cur st_ok_addrenv = addrenv_cur st_caller.
Proof.
  assert (Hrun : exec_module cfg_addrenv w_ok (Some bin_hello) st_caller
                 = Some (7, st_ok_addrenv, evs_ok_addrenv)) by reflexivity.
  split; [exact Hrun|].
  destruct (exec_module_success_keeps_resources _ _ _ _ _ _ _ Hrun)
    as (_ & Herr & Henv).
  - intros Heq. discriminate Heq.
  - split; [exact Herr | exact Henv].
Defined.

(* ------------------------------------------------------------------------ *)
(** ** The descriptor and [errno] on the error exits *)

(** X6.  In a run that got a descriptor and in which a step fails
    (an allocator returns NULL or a collaborator a negative value),
    [exec_module] returns [ERROR] and has given that descriptor up exactly
    once: with [kmm_free] when the failure comes before [task_init] is
    called, through [sched_releasetcb] once [task_init] has been called, and
    never both. *)
Theorem exec_module_descriptor_released_once cfg w binp s r s' evs tcb e :
  exec_module cfg w binp s = Some (r, s', evs) ->
  In (Ekmm_zalloc tcb) evs ->
  tcb <> NULL ->
  In e evs ->
  step_fails e = true ->
  r = ERROR /\
  count (releases_descriptor tcb) evs = 1%nat /\
  existsb is_sched_releasetcb evs = existsb is_task_init evs /\
  (existsb is_task_init evs = true -> forall p, ~ In (Ekmm_free p) evs).
Proof.
  intros H Hkz Hnn He Hf.
  apply exec_module_run in H.
  inversion H; subst; clear H; launch_concrete cfg;
    in_cases Hkz; injection Hkz as <-;
    try (exfalso; apply Hnn; apply Z.eqb_eq; assumption).
  all: failing_event He Hf.
  all: split; [reflexivity|].
  all: split; [unfold count; simpl; rewrite Z.eqb_refl; reflexivity|].
  all: split; [reflexivity|].
  all: simpl; intros Hti; try discriminate Hti.
  all: intros p Hp; in_cases Hp.
Qed.

Lemma exec_module_descriptor_released_once_witness :
  exec_module cfg_addrenv w_no_stack (Some bin_hello) st_caller =
    Some (ERROR, st_no_stack, evs_no_stack) /\
  count (releases_descriptor 100) evs_no_stack = 1%nat.
Proof.
  assert (Hrun : exec_module cfg_addrenv w_no_stack (Some bin_hello) st_caller
                 = Some (ERROR, st_no_stack, evs_no_stack)) by reflexivity.
  split; [exact Hrun|].
  refine (proj1 (proj2 (exec_module_descriptor_released_once cfg_addrenv
                          w_no_stack (Some bin_hello) st_caller ERROR
                          st_no_stack evs_no_stack 100
                          (Ekumm_malloc 2048 NULL) Hrun _ _ _ _))).
  - in_list.
  - intros Heq. discriminate Heq.
  - in_list.
  - reflexivity.
Defined.

(** X10.  When a step of the launch fails, the run that returns has
    written [errno] once, with its last call, after all the undoing: it
    returns [ERROR], the value written is the diagnostic of the first step
    that failed and it is the [errno] the caller finds. *)
Theorem exec_module_errno_written_last cfg w binp s r s' evs code :
  exec_module cfg w binp s = Some (r, s', evs) ->
  launch_failure cfg w binp = Some code ->
  r = ERROR /\ errno s' = code /\
  exists pre,
    evs = pre ++ [Eset_errno code] /\
    forall e, In e pre -> is_set_errno e = false.
Proof.
  intros H Hfail.
  apply exec_module_run in H.
  assert (Hpre : exists pre, pre = removelast evs) by eauto.
  destruct Hpre as (pre & Hpre).
  revert Hfail.
  inversion H; subst evs; subst r; try subst binp; clear H;
    unfold launch_failure; use_tests; intros Hfail;
    try discriminate Hfail; injection Hfail as <-.
  all: split; [reflexivity|]; split; [assumption|].
  all: exists pre; subst pre; launch_concrete cfg; simpl.
  all: split; [reflexivity|intros e He; in_all He].
Qed.

Lemma exec_module_errno_written_last_witness :
  exec_module cfg_flat w_activate_fails (Some bin_hello) st_caller =
    Some (ERROR, st_activate_fails, evs_activate_fails) /\
  errno st_activate_fails = 3.
Proof.
  assert (Hrun : exec_module cfg_flat w_activate_fails (Some bin_hello)
                   st_caller
                 = Some (ERROR, st_activate_fails, evs_activate_fails))
    by reflexivity.
  split; [exact Hrun|].
  destruct (exec_module_errno_written_last cfg_flat w_activate_fails
              (Some bin_hello) st_caller ERROR st_activate_fails
              evs_activate_fails 3 Hrun)
    as (_ & Herr & _).
  - reflexivity.
  - exact Herr.
Defined.

(* ------------------------------------------------------------------------ *)
(** ** The address environment *)

(** X7.  A build without [CONFIG_ARCH_ADDRENV] never touches an address
    environment: no run selects, clones or restores one, sets up a user heap
    or flags the task group, and the selected environment is the same after
    the call as before, on every exit. *)
Theorem exec_module_flat_no_addrenv cfg w binp s r s' evs :
  CONFIG_ARCH_ADDRENV cfg = false ->
  exec_module cfg w binp s = Some (r, s', evs) ->
  (forall e, In e evs -> is_addrenv_event e = false) /\
  addrenv_cur s' = addrenv_cur s.
Proof.
  intros Hcfg H.
  apply exec_module_run in H.
  inversion H; subst; clear H; launch_concrete cfg;
    try discriminate; cbn [andb] in *.
  all: split; [intros e He; in_all He | assumption].
Qed.

Lemma exec_module_flat_no_addrenv_witness :
  exec_module cfg_flat w_ok (Some bin_hello) st_caller =
    Some (7, st_ok_flat, evs_ok_flat) /\
  addrenv_cur st_ok_flat = addrenv_cur st_caller.
Proof.
  assert (Hrun : exec_module cfg_flat w_ok (Some bin_hello) st_caller
                 = Some (7, st_ok_flat, evs_ok_flat)) by reflexivity.
  split; [exact Hrun|].
  exact (proj2 (exec_module_flat_no_addrenv cfg_flat w_ok (Some bin_hello)
                  st_caller 7 st_ok_flat evs_ok_flat eq_refl Hrun)).
Defined.

(** X8.  Whenever [up_addrenv_restore] is called, it is handed the
    environment that was selected when [exec_module] was entered, the one
    that an earlier, successful [up_addrenv_select] of the image's
    environment saved; and when the call succeeds, that environment is the
    selected one when [exec_module] returns. *)
Theorem exec_module_restores_saved_env cfg w binp s r s' evs oldenv rr :
  exec_module cfg w binp s = Some (r, s', evs) ->
  In (Eup_addrenv_restore oldenv rr) evs ->
  oldenv = addrenv_cur s /\
  (exists b pre post,
     binp = Some b /\
     evs = pre ++ Eup_addrenv_restore oldenv rr :: post /\
     In (Eup_addrenv_select (addrenv b) oldenv (up_addrenv_select_ret w)) pre
     /\ 0 <= up_addrenv_select_ret w) /\
  (0 <= rr -> addrenv_cur s' = addrenv_cur s).
Proof.
  intros H Hres.
  apply exec_module_run in H.
  inversion H; subst; clear H;
    try solve [ exfalso; launch_concrete cfg; in_cases Hres ].
  - (* the stack allocation failed *)
    assert (Hsel : CONFIG_ARCH_ADDRENV cfg = true ->
                   0 <= up_addrenv_select_ret w).
    { intros Hc. apply Z.ltb_ge.
      match goal with
      | E : ?c && (up_addrenv_select_ret w <? 0) = false |- _ =>
          rewrite Hc in E; exact E
      end. }
    set (pre := ev_stack cfg w s b).
    launch_concrete cfg; in_cases Hres; injection Hres as <- <-.
    all: split; [reflexivity|].
    all: split;
      [ exists b, pre; eexists; split; [reflexivity|];
        split; [reflexivity|]; split; [in_list | exact (Hsel eq_refl)] |].
    all: intros Hrr;
      match goal with E : addrenv_cur _ = _ |- _ => rewrite E end;
      cbn [andb];
      destruct (Z.ltb_spec (up_addrenv_restore_ret w) 0);
      [lia | reflexivity].
  - (* restore itself failed, after the activation *)
    assert (Hsel : 0 <= up_addrenv_select_ret w)
      by (apply Z.ltb_ge; assumption).
    assert (Hrs : up_addrenv_restore_ret w < 0)
      by (apply Z.ltb_lt; assumption).
    set (pre := ev_activate cfg w s b).
    launch_concrete cfg; try discriminate;
      in_cases Hres; injection Hres as <- <-.
    all: split; [reflexivity|].
    all: split;
      [ exists b, pre; eexists; split; [reflexivity|];
        split; [reflexivity|]; split; [in_list | exact Hsel] |].
    all: intros Hrr; lia.
  - (* no step failed *)
    assert (Hsel : CONFIG_ARCH_ADDRENV cfg = true ->
                   0 <= up_addrenv_select_ret w).
    { intros Hc. apply Z.ltb_ge.
      match goal with
      | E : ?c && (up_addrenv_select_ret w <? 0) = false |- _ =>
          rewrite Hc in E; exact E
      end. }
    set (pre := ev_activate cfg w s b).
    launch_concrete cfg; in_cases Hres; injection Hres as <- <-.
    all: split; [reflexivity|].
    all: split;
      [ exists b, pre; eexists; split; [reflexivity|];
        split; [reflexivity|]; split; [in_list | exact (Hsel eq_refl)] |].
    all: intros _; assumption.
Qed.

Lemma exec_module_restores_saved_env_witness :
  exec_module cfg_addrenv w_ok (Some bin_hello) st_caller =
    Some (7, st_ok_addrenv, evs_ok_addrenv) /\
  addrenv_cur st_ok_addrenv = addrenv_cur st_caller.
Proof.
  assert (Hrun : exec_module cfg_addrenv w_ok (Some bin_hello) st_caller
                 = Some (7, st_ok_addrenv, evs_ok_addrenv)) by reflexivity.
  split; [exact Hrun|].
  destruct (exec_module_restores_saved_env cfg_addrenv w_ok (Some bin_hello)
              st_caller 7 st_ok_addrenv evs_ok_addrenv 1 0 Hrun)
    as (_ & _ & Henv).
  - in_list.
  - apply Henv. exact (Z.le_refl 0).
Defined.

(* ------------------------------------------------------------------------ *)
(** ** The start hook *)

(** X9.  [exec_module] registers the constructors and does not run them:
    no run, in any build and on any exit, calls a constructor.  In a build
    with constructors, after a run that returns something else than [ERROR]
    the hook slot of the new task holds the image descriptor, and
    [exec_ctors] run on that argument, as the scheduler will on the new
    thread, calls the first [nctors] constructors of the image, in order. *)
Theorem exec_module_hook_runs_ctors cfg w binp s r s' evs :
  exec_module cfg w binp s = Some (r, s', evs) ->
  (forall fn, ~ In (Ector fn) evs) /\
  (r <> ERROR ->
   CONFIG_BINFMT_CONSTRUCTORS cfg = true ->
   exists b,
     binp = Some b /\ starthook (tcb_mem s') = Some b /\
     ((Z.to_nat (nctors b) <= length (ctors b))%nat ->
      forall s1,
        exec_ctors (starthook (tcb_mem s')) s1 =
          Some (tt, s1, map Ector (firstn (Z.to_nat (nctors b)) (ctors b))))).
Proof.
  intros H. split.
  - apply exec_module_run in H.
    inversion H; subst; clear H; launch_concrete cfg;
      intros fn Hin; in_cases Hin.
  - intros Hok Hctr.
    destruct cfg as [[|] [|] [|] [|] vbase]; try discriminate Hctr;
      launch_paths H; subst; try (exfalso; apply Hok; reflexivity).
    all: eexists; split; [reflexivity|]; split; [reflexivity|].
    all: intros Hlen s1; cbn [starthook tcb_mem].
    all: unfold exec_ctors, deref, bind, ret.
    all: rewrite exec_ctors_loop_calls by exact Hlen; reflexivity.
Qed.

Lemma exec_module_hook_runs_ctors_witness :
  exec_module cfg_addrenv w_ok (Some bin_hello) st_caller =
    Some (7, st_ok_addrenv, evs_ok_addrenv) /\
  exec_ctors (starthook (tcb_mem st_ok_addrenv)) st_caller =
    Some (tt, st_caller, [Ector 24576; Ector 24580; Ector 24584]).
Proof.
  assert (Hrun : exec_module cfg_addrenv w_ok (Some bin_hello) st_caller
                 = Some (7, st_ok_addrenv, evs_ok_addrenv)) by reflexivity.
  split; [exact Hrun|].
  destruct (exec_module_hook_runs_ctors cfg_addrenv w_ok (Some bin_hello)
              st_caller 7 st_ok_addrenv evs_ok_addrenv Hrun)
    as (_ & Hhook).
  destruct Hhook as (b & Hb & _ & Hctors).
  - intros Heq. discriminate Heq.
  - reflexivity.
  - injection Hb as <-. apply Hctors. exact (le_n 3).
Defined.

(* ------------------------------------------------------------------------ *)
(** ** The image descriptor *)

(** X11.  [exec_module] reads through a NULL descriptor in one case only:
    the build has no [CONFIG_DEBUG], the descriptor is NULL, [kmm_zalloc] has
    returned a block and, with address environments, [up_addrenv_select] has
    not failed; the read is that of [binp->stacksize].  In every other case
    it returns. *)
Theorem exec_module_faults_iff cfg w binp s :
  exec_module cfg w binp s = None <->
  CONFIG_DEBUG cfg = false /\ binp = None /\ kmm_zalloc_ret w <> NULL /\
  CONFIG_ARCH_ADDRENV cfg && (up_addrenv_select_ret w <? 0) = false.
Proof.
  split.
  - intros H.
    destruct cfg as [[|] [|] [|] [|] vbase]; launch_paths H; subst;
      try discriminate.
    all: split; [reflexivity|]; split; [reflexivity|].
    all: split; [apply Z.eqb_neq; assumption|].
    all: first [reflexivity | assumption].
  - intros (Hdbg & -> & Hkz & Hsel).
    apply Z.eqb_neq in Hkz.
    destruct (exec_module cfg w None s) as [[[r s'] evs]|] eqn:H;
      [exfalso|reflexivity].
    destruct cfg as [[|] [|] [|] [|] vbase]; try discriminate Hdbg;
      cbn [CONFIG_ARCH_ADDRENV andb] in Hsel;
      launch_paths H; congruence.
Qed.

(** What the argument check lets through. *)
Lemma sanity_passes binp :
  sanity_fails binp = false ->
  exists b, binp = Some b /\ entrypt b <> NULL /\ 0 < stacksize b.
Proof.
  destruct binp as [b|]; simpl; intros Hs; [|discriminate Hs].
  apply orb_false_iff in Hs. destruct Hs as (He & Hz).
  exists b. split; [reflexivity|].
  split; [apply Z.eqb_neq; exact He | apply Z.leb_gt; exact Hz].
Qed.

(** X12.  In a build with [CONFIG_DEBUG] nothing is allocated for a bad
    image: a run that calls [kmm_zalloc] has a descriptor that is not NULL,
    with an entry point that is not NULL and a positive stack size, and these
    are the size asked of [kumm_malloc] and the entry point and size given
    to [task_init]. *)
Theorem exec_module_debug_checks_first cfg w binp s r s' evs p :
  CONFIG_DEBUG cfg = true ->
  exec_module cfg w binp s = Some (r, s', evs) ->
  In (Ekmm_zalloc p) evs ->
  exists b,
    binp = Some b /\ entrypt b <> NULL /\ 0 < stacksize b /\
    (forall size q, In (Ekumm_malloc size q) evs -> size = stacksize b) /\
    (forall t prio st size entry ir,
       In (Etask_init t prio st size entry ir) evs ->
       entry = entrypt b /\ size = stacksize b).
Proof.
  intros Hdbg H Hkz.
  apply exec_module_run in H.
  inversion H; subst; clear H; try (in_cases Hkz; fail).
  all: match goal with
       | E : ?d && sanity_fails _ = false |- _ =>
           rewrite Hdbg in E; cbn [andb] in E;
           destruct (sanity_passes _ E) as (b0 & Hb & Hentry & Hsize)
       end.
  all: try (injection Hb as ->).
  all: exists b0; split; [first [reflexivity | assumption]|].
  all: split; [assumption|]; split; [assumption|].
  all: clear Hkz; launch_concrete cfg.
  all: split;
    [ intros size q Hin; in_cases Hin; injection Hin as ? ?; subst;
      reflexivity
    | intros t prio st size entry ir Hin; in_cases Hin;
      injection Hin as ? ? ? ? ? ?; subst; split; reflexivity ].
Qed.

Lemma exec_module_debug_checks_first_witness :
  exec_module cfg_flat w_ok (Some bin_hello) st_caller =
    Some (7, st_ok_flat, evs_ok_flat) /\
  exists b,
    Some bin_hello = Some b /\ entrypt b <> NULL /\ 0 < stacksize b.
Proof.
  assert (Hrun : exec_module cfg_flat w_ok (Some bin_hello) st_caller
                 = Some (7, st_ok_flat, evs_ok_flat)) by reflexivity.
  split; [exact Hrun|].
  destruct (exec_module_debug_checks_first cfg_flat w_ok (Some bin_hello)
              st_caller 7 st_ok_flat evs_ok_flat 100 eq_refl Hrun)
    as (b & Hb & Hentry & Hsize & _).
  - in_list.
  - exists b. split; [exact Hb|]. split; [exact Hentry | exact Hsize].
Defined.
